(** * Flight simulator: the per-frame [update] step of [src/main.js]

    A shallow embedding of the flight state, the reset routine and the
    per-frame update loop, followed by the properties of the step.

    Number model.  JavaScript numbers are IEEE-754 doubles.  They are
    embedded here as real numbers ([R]): [+ - * /] are the field
    operations, [Math.sqrt], [Math.sin], [Math.cos] are the real functions
    and [Math.pow] is [Rpower] (every call in the source has a positive
    constant base).  Rounding, NaN and the infinities are outside this
    model. *)

From Stdlib Require Import ZArith Lia Reals Lra Psatz RNsatz List Bool String.
Import ListNotations.
Open Scope R_scope.

(** ** Comparisons of numbers as booleans *)

Definition Rltb (a b : R) : bool := if Rlt_dec a b then true else false.
Definition Rleb (a b : R) : bool := if Rle_dec a b then true else false.
Definition Rgtb (a b : R) : bool := Rltb b a.

(** ** The parts of [Math] the step uses *)

Module Math.
Definition PI : R := Rtrigo1.PI.
Definition min (a b : R) : R := Rmin a b.
Definition max (a b : R) : R := Rmax a b.
Definition abs (a : R) : R := Rabs a.
Definition pow (base e : R) : R := Rpower base e.
Definition sin (a : R) : R := Rtrigo_def.sin a.
Definition cos (a : R) : R := Rtrigo_def.cos a.
Definition sqrt (a : R) : R := R_sqrt.sqrt a.
End Math.

(** ** The parts of three.js the step uses: [Vector3] and [Quaternion] *)

Module THREE.

Record Vector3 := mkVector3 { x : R; y : R; z : R }.

Record Quaternion := mkQuaternion { _x : R; _y : R; _z : R; _w : R }.

Definition set_y (v : Vector3) (b : R) : Vector3 := mkVector3 (x v) b (z v).

(** [v.length()] *)
Definition length (v : Vector3) : R :=
  Math.sqrt (x v * x v + y v * y v + z v * z v).

(** [v.add(a)] *)
Definition add (v a : Vector3) : Vector3 :=
  mkVector3 (x v + x a) (y v + y a) (z v + z a).

(** [v.addScaledVector(a, s)] *)
Definition addScaledVector (v a : Vector3) (s : R) : Vector3 :=
  mkVector3 (x v + x a * s) (y v + y a * s) (z v + z a * s).

(** [v.multiplyScalar(s)] *)
Definition multiplyScalar (v : Vector3) (s : R) : Vector3 :=
  mkVector3 (x v * s) (y v * s) (z v * s).

(** [v.divideScalar(s)] is [v.multiplyScalar(1 / s)] *)
Definition divideScalar (v : Vector3) (s : R) : Vector3 :=
  multiplyScalar v (1 / s).

(** [v.normalize()] is [v.divideScalar(v.length() || 1)] *)
Definition normalize (v : Vector3) : Vector3 :=
  divideScalar v (if Req_dec_T (length v) 0 then 1 else length v).

(** [v.setLength(l)] is [v.normalize().multiplyScalar(l)] *)
Definition setLength (v : Vector3) (l : R) : Vector3 :=
  multiplyScalar (normalize v) l.

(** [v.lerp(w, alpha)] *)
Definition lerp (v w : Vector3) (alpha : R) : Vector3 :=
  mkVector3 (x v + (x w - x v) * alpha)
            (y v + (y w - y v) * alpha)
            (z v + (z w - z v) * alpha).

(** [new Quaternion().setFromAxisAngle(axis, angle)] *)
Definition setFromAxisAngle (axis : Vector3) (angle : R) : Quaternion :=
  let halfAngle := angle / 2 in
  let s := Math.sin halfAngle in
  mkQuaternion (x axis * s) (y axis * s) (z axis * s) (Math.cos halfAngle).

(** [new Quaternion().multiplyQuaternions(a, b)] *)
Definition multiplyQuaternions (a b : Quaternion) : Quaternion :=
  let qax := _x a in let qay := _y a in let qaz := _z a in let qaw := _w a in
  let qbx := _x b in let qby := _y b in let qbz := _z b in let qbw := _w b in
  mkQuaternion
    (qax * qbw + qaw * qbx + qay * qbz - qaz * qby)
    (qay * qbw + qaw * qby + qaz * qbx - qax * qbz)
    (qaz * qbw + qaw * qbz + qax * qby - qay * qbx)
    (qaw * qbw - qax * qbx - qay * qby - qaz * qbz).

(** [a.multiply(b)] *)
Definition multiply (a b : Quaternion) : Quaternion :=
  multiplyQuaternions a b.

(** [v.applyQuaternion(q)] *)
Definition applyQuaternion (v : Vector3) (q : Quaternion) : Vector3 :=
  let vx := x v in let vy := y v in let vz := z v in
  let qx := _x q in let qy := _y q in let qz := _z q in let qw := _w q in
  let tx := 2 * (qy * vz - qz * vy) in
  let ty := 2 * (qz * vx - qx * vz) in
  let tz := 2 * (qx * vy - qy * vx) in
  mkVector3 (vx + qw * tx + qy * tz - qz * ty)
            (vy + qw * ty + qz * tx - qx * tz)
            (vz + qw * tz + qx * ty - qy * tx).

End THREE.

Import THREE.

(** ** Flight state *)

Record State := mkState {
  position : Vector3;
  velocity : Vector3;
  pitch : R;
  roll : R;
  yaw : R;
  throttle : R;
  speed : R;
  gForce : R;
  onGround : bool
}.

Definition set_position (v : Vector3) (s : State) : State :=
  mkState v (velocity s) (pitch s) (roll s) (yaw s) (throttle s) (speed s)
          (gForce s) (onGround s).
Definition set_velocity (v : Vector3) (s : State) : State :=
  mkState (position s) v (pitch s) (roll s) (yaw s) (throttle s) (speed s)
          (gForce s) (onGround s).
Definition set_pitch (a : R) (s : State) : State :=
  mkState (position s) (velocity s) a (roll s) (yaw s) (throttle s) (speed s)
          (gForce s) (onGround s).
Definition set_roll (a : R) (s : State) : State :=
  mkState (position s) (velocity s) (pitch s) a (yaw s) (throttle s) (speed s)
          (gForce s) (onGround s).
Definition set_yaw (a : R) (s : State) : State :=
  mkState (position s) (velocity s) (pitch s) (roll s) a (throttle s) (speed s)
          (gForce s) (onGround s).
Definition set_throttle (a : R) (s : State) : State :=
  mkState (position s) (velocity s) (pitch s) (roll s) (yaw s) a (speed s)
          (gForce s) (onGround s).
Definition set_speed (a : R) (s : State) : State :=
  mkState (position s) (velocity s) (pitch s) (roll s) (yaw s) (throttle s) a
          (gForce s) (onGround s).
Definition set_gForce (a : R) (s : State) : State :=
  mkState (position s) (velocity s) (pitch s) (roll s) (yaw s) (throttle s)
          (speed s) a (onGround s).
Definition set_onGround (b : bool) (s : State) : State :=
  mkState (position s) (velocity s) (pitch s) (roll s) (yaw s) (throttle s)
          (speed s) (gForce s) b.

(** The object literal [state] the program starts with. *)
Definition state0 : State :=
  mkState (mkVector3 0 2 0) (mkVector3 0 0 0) 0 0 0 0.3 0 1.0 true.

Definition GRAVITY : R := 9.81.
Definition MAX_SPEED : R := 110.
Definition STALL_SPEED : R := 20.
Definition LIFT_FACTOR : R := 0.0038.
Definition DRAG_FACTOR : R := 0.0018.
Definition THRUST_ACCEL : R := 22.
Definition PITCH_RATE : R := 1.2.
Definition ROLL_RATE : R := 1.6.
Definition YAW_RATE : R := 0.5.
Definition MAX_PITCH : R := Math.PI / 2.5.
Definition MAX_ROLL : R := Math.PI * 0.8.
Definition ROLL_DAMPING : R := 0.97.
Definition PITCH_DAMPING : R := 0.97.
Definition GROUND_FRICTION : R := 0.998.
Definition GROUND_ANGLE_DAMPING : R := 0.9.
Definition CAMERA_LERP : R := 0.01.

(** ** Input

    [keys] is an object indexed by key code; a code never pressed reads
    [undefined], which the conditions of [update] treat as false. *)

Definition Keys : Type := string -> bool.

Definition noKeys : Keys := fun _ => false.
Definition held (code : string) : Keys := fun c => String.eqb c code.

(** ** Camera and the module-level variables of the loop *)

Definition cameraOffset : Vector3 := mkVector3 (-18) 3 0.

Record Sim := mkSim {
  state : State;
  cameraTarget : Vector3;
  cameraCurrent : Vector3;
  prevAltitude : R
}.

(** Numbers the HUD shows, before they are rounded to text, and the stall
    warning overlay ([display] is ['block'] exactly when [stallWarning]). *)
Record Hud := mkHud {
  altM : R;
  vsi : R;
  hudGforce : R;
  stallWarning : bool
}.

(** ** Reset *)

Definition resetAirplane (s : State) : State :=
  let s := set_position (mkVector3 0 2 0) s in
  let s := set_velocity (mkVector3 0 0 0) s in
  let s := set_pitch 0 s in
  let s := set_roll 0 s in
  let s := set_yaw 0 s in
  let s := set_throttle 0.3 s in
  let s := set_speed 0 s in
  set_onGround true s.

(** ** Update loop, phase by phase *)

(** [if (c) f(state);] *)
Definition when (c : bool) (f : State -> State) (s : State) : State :=
  if c then f s else s.

(** Controls: the key tests up to and including the reset key. *)
Definition applyControls (keys : Keys) (dt : R) (s : State) : State :=
  let s := when (keys "KeyW"%string) (fun s => set_pitch (pitch s - PITCH_RATE * dt) s) s in
  let s := when (keys "KeyS"%string) (fun s => set_pitch (pitch s + PITCH_RATE * dt) s) s in
  let s := when (keys "KeyA"%string) (fun s => set_roll (roll s - ROLL_RATE * dt) s) s in
  let s := when (keys "KeyD"%string) (fun s => set_roll (roll s + ROLL_RATE * dt) s) s in
  let s := when (keys "KeyQ"%string) (fun s => set_yaw (yaw s + YAW_RATE * dt) s) s in
  let s := when (keys "KeyE"%string) (fun s => set_yaw (yaw s - YAW_RATE * dt) s) s in
  let s := when (keys "ArrowUp"%string)
             (fun s => set_throttle (Math.min 1 (throttle s + dt * 0.6)) s) s in
  let s := when (keys "ArrowDown"%string)
             (fun s => set_throttle (Math.max 0 (throttle s - dt * 0.6)) s) s in
  when (keys "Space"%string) resetAirplane s.

(** Clamp angles. *)
Definition clampAngles (s : State) : State :=
  let s := set_pitch (Math.max (- MAX_PITCH) (Math.min MAX_PITCH (pitch s))) s in
  set_roll (Math.max (- MAX_ROLL) (Math.min MAX_ROLL (roll s))) s.

(** Yaw coupling from roll. *)
Definition yawCoupling (dt : R) (s : State) : State :=
  set_yaw (yaw s + roll s * 0.35 * dt) s.

(** Roll and pitch auto-level when no input. *)
Definition autoLevel (keys : Keys) (dt : R) (s : State) : State :=
  let s := when (negb (keys "KeyA"%string) && negb (keys "KeyD"%string))
             (fun s => set_roll (roll s * Math.pow ROLL_DAMPING (dt * 60)) s) s in
  when (negb (keys "KeyW"%string) && negb (keys "KeyS"%string))
    (fun s => set_pitch (pitch s * Math.pow PITCH_DAMPING (dt * 60)) s) s.

(** The whole controls section of [update]. *)
Definition controls (keys : Keys) (dt : R) (s : State) : State :=
  autoLevel keys dt (yawCoupling dt (clampAngles (applyControls keys dt s))).

(** Orientation quaternion and the forward and up vectors in world space. *)
Definition qTotal (s : State) : Quaternion :=
  let qYaw := setFromAxisAngle (mkVector3 0 1 0) (yaw s) in
  let qPitch := setFromAxisAngle (mkVector3 0 0 1) (pitch s) in
  let qRoll := setFromAxisAngle (mkVector3 1 0 0) (roll s) in
  multiply (multiplyQuaternions qYaw qPitch) qRoll.

Definition forward (s : State) : Vector3 :=
  applyQuaternion (mkVector3 1 0 0) (qTotal s).
Definition upWorld (s : State) : Vector3 :=
  applyQuaternion (mkVector3 0 1 0) (qTotal s).

(** [state.speed = state.velocity.length()] *)
Definition measureSpeed (s : State) : State :=
  set_speed (length (velocity s)) s.

(** Stall check, on the state whose [speed] has just been measured. *)
Definition isStalled (s : State) : bool :=
  Rltb (speed s) STALL_SPEED && negb (onGround s).

Definition liftAcc (s : State) : R :=
  if isStalled s then 0 else speed s * speed s * LIFT_FACTOR.

(** The drag block: [None] when the guard [speed > 0.01] fails, otherwise
    the factor [-dragAcc / speed] by which the velocity is added to the
    acceleration; this is the only division by the speed. *)
Definition dragScale (s : State) : option R :=
  if Rgtb (speed s) 0.01
  then let dragAcc := speed s * speed s * DRAG_FACTOR in
       Some (- dragAcc / speed s)
  else None.

(** Thrust and lift, the contributions added before the drag block. *)
Definition thrustAndLift (s : State) : Vector3 :=
  let acc := mkVector3 0 0 0 in
  let acc := addScaledVector acc (forward s) (throttle s * THRUST_ACCEL) in
  addScaledVector acc (upWorld s) (liftAcc s).

Definition acceleration (s : State) : Vector3 :=
  let acc := thrustAndLift s in
  let acc := match dragScale s with
             | Some k => addScaledVector acc (velocity s) k
             | None => acc
             end in
  set_y acc (y acc - GRAVITY).

(** Integrate velocity (Euler). *)
Definition integrateVelocity (dt : R) (s : State) : State :=
  set_velocity (addScaledVector (velocity s) (acceleration s) dt) s.

(** Speed cap. *)
Definition speedCap (s : State) : State :=
  if Rgtb (length (velocity s)) MAX_SPEED
  then set_velocity (setLength (velocity s) MAX_SPEED) s
  else s.

(** Ground constraint. *)
Definition groundY : R := 1.1.

Definition groundConstraint (dt : R) (s : State) : State :=
  if Rleb (y (position s)) groundY then
    let s := set_position (set_y (position s) groundY) s in
    let s := when (Rltb (y (velocity s)) 0)
               (fun s => set_velocity (set_y (velocity s) 0) s) s in
    let s := set_velocity
               (mkVector3 (x (velocity s) * Math.pow GROUND_FRICTION (dt * 60))
                          (y (velocity s))
                          (z (velocity s) * Math.pow GROUND_FRICTION (dt * 60))) s in
    let s := set_onGround true s in
    let s := set_pitch (pitch s * Math.pow GROUND_ANGLE_DAMPING (dt * 60)) s in
    set_roll (roll s * Math.pow GROUND_ANGLE_DAMPING (dt * 60)) s
  else set_onGround false s.

(** Integrate position. *)
Definition integratePosition (dt : R) (s : State) : State :=
  set_position (addScaledVector (position s) (velocity s) dt) s.

(** The physics section of [update], from the speed measurement to the
    g-force estimate; [s] is the state the controls section leaves. *)
Definition physics (dt : R) (s : State) : State :=
  let s0 := measureSpeed s in
  let s := integrateVelocity dt s0 in
  let s := speedCap s in
  let s := groundConstraint dt s in
  let s := integratePosition dt s in
  set_gForce (Math.abs (liftAcc s0 / GRAVITY) + 1.0) s.

(** Chase camera. *)
Definition chaseCamera (dt : R) (s : State) (w : Sim) : Sim :=
  let camOffset := applyQuaternion cameraOffset
                     (setFromAxisAngle (mkVector3 0 1 0) (yaw s)) in
  let desiredCamPos := add (position s) camOffset in
  let cur := lerp (cameraCurrent w) desiredCamPos (1 - Math.pow CAMERA_LERP dt) in
  let tgt := lerp (cameraTarget w) (add (position s) (mkVector3 0 1 0))
                  (1 - Math.pow CAMERA_LERP dt) in
  mkSim s tgt cur (prevAltitude w).

(** [update()]: [delta] is what [clock.getDelta()] returns for the frame.
    The vertical speed is the quotient the source computes; for [dt = 0]
    the source divides by zero there (the text shown is then NaN or
    Infinity), and no statement below depends on [vsi]. *)
Definition update (keys : Keys) (delta : R) (w : Sim) : Sim * Hud :=
  let dt := Math.min delta 0.05 in
  let s1 := controls keys dt (state w) in
  let s := physics dt s1 in
  let cam := chaseCamera dt s w in
  let hud := mkHud (Math.max 0 (y (position s) - 1.1))
                   ((y (position s) - prevAltitude w) / dt)
                   (gForce s)
                   (isStalled (measureSpeed s1)) in
  (mkSim s (cameraTarget cam) (cameraCurrent cam) (y (position s)), hud).

(** One frame, and a run of frames. *)
Definition tick (keys : Keys) (delta : R) (w : Sim) : Sim :=
  fst (update keys delta w).

Fixpoint run (frames : list (Keys * R)) (w : Sim) : Sim :=
  match frames with
  | [] => w
  | (keys, delta) :: rest => run rest (tick keys delta w)
  end.

(** The program before its first frame: the camera is placed behind the
    aircraft, [cameraTarget] is a fresh vector and [prevAltitude] is 0. *)
Definition sim0 : Sim :=
  mkSim state0 (mkVector3 0 0 0) (add (position state0) cameraOffset) 0.

(** States the loop can be in: [sim0] and what frames with a non-negative
    clock delta lead to. *)
Inductive reachable : Sim -> Prop :=
| reachable_init : reachable sim0
| reachable_tick : forall keys delta w,
    reachable w -> 0 <= delta -> reachable (tick keys delta w).

(** ** The seeded random number generator

    Integers are exact in JavaScript numbers up to 2^53, so the integer
    operations of [mulberry32] are embedded on [Z], with the conversions
    to 32 bits written out. *)

(** [n | 0]: conversion to a signed 32-bit integer. *)
Definition toInt32 (n : Z) : Z := ((n + 2 ^ 31) mod 2 ^ 32 - 2 ^ 31)%Z.

(** [n >>> 0]: conversion to an unsigned 32-bit integer. *)
Definition toUint32 (n : Z) : Z := (n mod 2 ^ 32)%Z.

(** [a ^ b] and [a | b] on numbers: both operands are converted to signed
    32-bit integers, and so is the result. *)
Definition bxor (a b : Z) : Z := toInt32 (Z.lxor (toInt32 a) (toInt32 b)).
Definition bor (a b : Z) : Z := toInt32 (Z.lor (toInt32 a) (toInt32 b)).

(** [n >>> k] for a shift count below 32. *)
Definition ushr (n k : Z) : Z := Z.shiftr (toUint32 n) k.

(** [Math.imul(a, b)] *)
Definition imul (a b : Z) : Z := toInt32 (toInt32 a * toInt32 b).

(** One call of the function [mulberry32(seed)] returns, on the current
    value of its variable [seed]: the new value of [seed] and the numerator
    of the result, which is that unsigned 32-bit integer divided by
    4294967296. *)
Definition mulberry32_next (seed : Z) : Z * Z :=
  let seed := toInt32 seed in
  let seed := toInt32 (seed + 0x6d2b79f5) in
  let t := imul (bxor seed (ushr seed 15)) (bor 1 seed) in
  let t := bxor (t + imul (bxor t (ushr t 7)) (bor 61 t)) t in
  (seed, toUint32 (bxor t (ushr t 14))).

(** The number a call returns, given its numerator. *)
Definition rngValue (u : Z) : R := IZR u / 4294967296.

(** The value of [seed] after [n] calls, and the numerators of the [n]
    numbers returned. *)
Fixpoint mulberry32_seed (n : nat) (seed : Z) : Z :=
  match n with
  | O => seed
  | S m => mulberry32_seed m (fst (mulberry32_next seed))
  end.

Fixpoint mulberry32_stream (n : nat) (seed : Z) : list Z :=
  match n with
  | O => []
  | S m => snd (mulberry32_next seed)
           :: mulberry32_stream m (fst (mulberry32_next seed))
  end.

(** [Math.floor], as an integer. *)
Definition Math_floor (a : R) : Z := Int_part a.

(** ** Scenery: terrain, runway markings, trees and clouds *)

Definition TERRAIN_SIZE : R := 12000.

(** The height [buildTerrain] gives the vertex at [(vx, vz)]. *)
Definition buildTerrain_height (vx vz : R) : R :=
  let dist := Math.sqrt (vx * vx + vz * vz) in
  let flatRadius := 600 in
  let blend := Math.max 0 ((dist - flatRadius) / 2000) in
  let noise :=
    Math.sin (vx * 0.003) * Math.cos (vz * 0.003) * 60 +
    Math.sin (vx * 0.009 + 1.3) * Math.cos (vz * 0.007) * 30 +
    Math.sin (vx * 0.02) * Math.sin (vz * 0.02) * 15 in
  noise * blend.

(** The three colour components [buildTerrain] pushes for a vertex of
    height [h]. *)
Definition buildTerrain_color (h : R) : list R :=
  if Rltb h 2 then [0.22; 0.45; 0.12]
  else if Rltb h 30 then [0.28; 0.52; 0.14]
  else if Rltb h 60 then [0.45; 0.38; 0.25]
  else [0.85; 0.88; 0.90].

(** The loop of [buildRunway]: [for (let z = -280; z <= 280; z += 30)],
    collecting the [z] of each centre-line mark; [fuel] bounds the number
    of iterations. *)
Fixpoint centerLine (fuel : nat) (z : Z) : list Z :=
  match fuel with
  | O => []
  | S rest => if (z <=? 280)%Z then z :: centerLine rest (z + 30) else []
  end.

(** What [addTrees] decides for a tree: the position of its group, the
    height of the trunk, the radius and height of the cone of leaves and
    the height at which the cone sits. *)
Record Tree := mkTree {
  treePosition : Vector3;
  trunkHeight : R;
  leavesRadius : R;
  leavesHeight : R;
  leavesY : R
}.

(** The loop of [addTrees], for the remaining [iterations] and the current
    state of the generator. *)
Fixpoint addTreesLoop (iterations : nat) (seed : Z) : list Tree :=
  match iterations with
  | O => []
  | S rest =>
      let (seed, u1) := mulberry32_next seed in
      let tx := (rngValue u1 - 0.5) * TERRAIN_SIZE * 0.8 in
      let (seed, u2) := mulberry32_next seed in
      let tz := (rngValue u2 - 0.5) * TERRAIN_SIZE * 0.8 in
      let dist := Math.sqrt (tx * tx + tz * tz) in
      if Rltb dist 700 then addTreesLoop rest seed
      else
        let (seed, u3) := mulberry32_next seed in
        let h := 8 + rngValue u3 * 10 in
        let (seed, u4) := mulberry32_next seed in
        mkTree (mkVector3 tx (h / 2) tz) h (4 + rngValue u4 * 2) (h * 1.2)
               (h * 0.9)
        :: addTreesLoop rest seed
  end.

Definition addTrees : list Tree := addTreesLoop 300 42.

Record Puff := mkPuff { puffRadius : R; puffPosition : Vector3 }.

Record Cloud := mkCloud { puffs : list Puff; cloudPosition : Vector3 }.

(** The inner loop of [addClouds]: the puffs of one cloud, and the state
    of the generator after them. *)
Fixpoint cloudPuffs (numPuffs : nat) (seed : Z) : list Puff * Z :=
  match numPuffs with
  | O => ([], seed)
  | S rest =>
      let (seed, u1) := mulberry32_next seed in
      let r := 40 + rngValue u1 * 60 in
      let (seed, u2) := mulberry32_next seed in
      let (seed, u3) := mulberry32_next seed in
      let (seed, u4) := mulberry32_next seed in
      let puff := mkPuff r (mkVector3 ((rngValue u2 - 0.5) * 120)
                                      ((rngValue u3 - 0.5) * 30)
                                      ((rngValue u4 - 0.5) * 80)) in
      let (more, seed) := cloudPuffs rest seed in
      (puff :: more, seed)
  end.

(** The outer loop of [addClouds]. *)
Fixpoint addCloudsLoop (iterations : nat) (seed : Z) : list Cloud :=
  match iterations with
  | O => []
  | S rest =>
      let (seed, u0) := mulberry32_next seed in
      let numPuffs := (3 + Math_floor (rngValue u0 * 5))%Z in
      let (ps, seed) := cloudPuffs (Z.to_nat numPuffs) seed in
      let (seed, u1) := mulberry32_next seed in
      let (seed, u2) := mulberry32_next seed in
      let (seed, u3) := mulberry32_next seed in
      mkCloud ps (mkVector3 ((rngValue u1 - 0.5) * 8000)
                            (600 + rngValue u2 * 800)
                            ((rngValue u3 - 0.5) * 8000))
      :: addCloudsLoop rest seed
  end.

Definition addClouds : list Cloud := addCloudsLoop 60 99.

(** ** Attitude indicator and heading *)

(** A rectangle handed to [fillRect(x, y, w, h)]. *)
Record Rect := mkRect { rectX : R; rectY : R; rectW : R; rectH : R }.

(** The numbers [drawAttitudeIndicator] draws with, for a canvas of
    width [W]: the radius of the clip circle, the rotation applied about
    its centre, the offset of the horizon and the sky and ground
    rectangles (in the rotated frame centred on the circle). *)
Record Horizon := mkHorizon {
  radius : R;
  rotation : R;
  pitchOffset : R;
  skyRect : Rect;
  groundRect : Rect
}.

Definition drawAttitudeIndicator (W pitchDeg rollDeg : R) : Horizon :=
  let r := W / 2 - 2 in
  let rot := (- rollDeg * Math.PI) / 180 in
  let pitchOffset := (pitchDeg / 90) * r in
  mkHorizon r rot pitchOffset
            (mkRect (- r) (- r * 2 + pitchOffset) (r * 2) (r * 2))
            (mkRect (- r) pitchOffset (r * 2) (r * 2)).

(** The call at the end of [update]. *)
Definition attitudeOf (W : R) (s : State) : Horizon :=
  drawAttitudeIndicator W (pitch s * (180 / Math.PI)) (roll s * (180 / Math.PI)).

(** The point [(px, py)] is painted by [fillRect] with this rectangle. *)
Definition inRect (px py : R) (r : Rect) : Prop :=
  rectX r <= px <= rectX r + rectW r /\ rectY r <= py <= rectY r + rectH r.

(** The remainder operator [a % m] on numbers: the quotient is truncated
    towards zero. *)
Definition truncate (a : R) : Z :=
  if Rle_dec 0 a then Int_part a else (- Int_part (- a))%Z.

Definition jsRem (a m : R) : R := a - m * IZR (truncate (a / m)).

(** The heading [update] shows, before rounding. *)
Definition heading (s : State) : R :=
  jsRem (jsRem ((- yaw s * 180) / Math.PI) 360 + 360) 360.

(** ** Definitions used by the statements *)

(** The camera position the chase camera moves towards. *)
Definition desiredCamPos (s : State) : Vector3 :=
  add (position s)
      (applyQuaternion cameraOffset
         (setFromAxisAngle (mkVector3 0 1 0) (yaw s))).

(** What holds of every tree the loop of [addTrees] places. *)
Definition treeOK (t : Tree) : Prop :=
  let p := treePosition t in
  700 <= Math.sqrt (x p * x p + z p * z p)
  /\ -4800 <= x p < 4800 /\ -4800 <= z p < 4800
  /\ 8 <= trunkHeight t < 18 /\ y p = trunkHeight t / 2
  /\ 4 <= leavesRadius t < 6
  /\ leavesHeight t = trunkHeight t * 1.2 /\ leavesY t = trunkHeight t * 0.9.

(** What holds of every puff and of every cloud [addClouds] places. *)
Definition puffOK (p : Puff) : Prop :=
  40 <= puffRadius p < 100
  /\ -60 <= x (puffPosition p) < 60
  /\ -15 <= y (puffPosition p) < 15
  /\ -40 <= z (puffPosition p) < 40.

Definition cloudOK (c : Cloud) : Prop :=
  (3 <= List.length (puffs c) <= 7)%nat
  /\ Forall puffOK (puffs c)
  /\ -4000 <= x (cloudPosition c) < 4000
  /\ 600 <= y (cloudPosition c) < 1400
  /\ -4000 <= z (cloudPosition c) < 4000.

(** The difference of two vectors. *)
Definition sub (a b : Vector3) : Vector3 :=
  mkVector3 (x a - x b) (y a - y b) (z a - z b).

(** The dot product of two vectors. *)
Definition dot (a b : Vector3) : R := x a * x b + y a * y b + z a * z b.

(** The drag factor as a number: 0 when the block is skipped. *)
Definition dragFactor (s : State) : R :=
  match dragScale s with
  | Some k => k
  | None => 0
  end.

(** The state [resetAirplane] leaves, given the g-force it does not touch. *)
Definition defaults (g : R) : State :=
  mkState (mkVector3 0 2 0) (mkVector3 0 0 0) 0 0 0 0.3 0 g true.

(** The state a frame ends in when the physics starts from the defaults. *)
Definition afterReset (dt : R) : State :=
  mkState (mkVector3 (6.6 * dt * dt) (2 - 9.81 * dt * dt) 0)
          (mkVector3 (6.6 * dt) (- 9.81 * dt) 0)
          0 0 0 0.3 0 1.0 false.

(** The fields other than the angles and the throttle. *)
Definition body (s : State) : Vector3 * Vector3 * R * R * bool :=
  (position s, velocity s, speed s, gForce s, onGround s).

(** The state at the ground test: speed measured, velocity integrated
    and capped. *)
Definition atGroundTest (dt : R) (s : State) : State :=
  speedCap (integrateVelocity dt (measureSpeed s)).

(** Every frame of the run has a non-negative clock delta. *)
Definition nonneg_deltas (frames : list (Keys * R)) : Prop :=
  Forall (fun f => 0 <= snd f) frames.

(** An aircraft at 500 m flying at 200 m/s. *)
Definition simFast : Sim :=
  mkSim (mkState (mkVector3 0 500 0) (mkVector3 200 0 0) 0 0 0 0.3 0 1.0 false)
        (mkVector3 0 0 0) (mkVector3 0 0 0) 0.

(** An aircraft touching down: on the gear, still sinking at 1 m/s. *)
Definition simTouchdown : Sim :=
  mkSim (mkState (mkVector3 0 1.1 0) (mkVector3 0 (-1) 0) 0 0 0 0.3 0 1.0 false)
        (mkVector3 0 0 0) (mkVector3 0 0 0) 0.

(** The factor the ground constraint applies to the angles in a frame that
    starts in [w]: [GROUND_ANGLE_DAMPING ^ (dt * 60)] when the aircraft is
    at or below [groundY], 1 when it is above. *)
Definition groundDamping (dt : R) (w : Sim) : R :=
  if Rleb (y (position (state w))) groundY
  then Math.pow GROUND_ANGLE_DAMPING (dt * 60) else 1.

(** Number of frames of a run whose ground test finds the aircraft at or
    below [groundY] (the frames in which the angles get the extra ground
    damping), for frames without reset. *)
Fixpoint groundFrames (frames : list (Keys * R)) (w : Sim) : nat :=
  match frames with
  | [] => 0
  | (keys, delta) :: rest =>
      ((if Rleb (y (position (state w))) groundY then 1 else 0)
       + groundFrames rest (tick keys delta w))%nat
  end.

(** [n] frames of 1/60 s with the same keys held. *)
Definition at60Hz (keys : Keys) (n : nat) : list (Keys * R) :=
  repeat (keys, 1 / 60) n.

(** The initial state banked by 0.5 rad. *)
Definition simRolled : Sim :=
  mkSim (mkState (mkVector3 0 2 0) (mkVector3 0 0 0) 0 0.5 0 0.3 0 1.0 true)
        (mkVector3 0 0 0) (add (mkVector3 0 2 0) cameraOffset) 0.

(** Bounds on the state after [n] frames of 0.05 s of free fall from the
    spawn point: level, airborne, drifting forward and sinking. *)
Definition Falling (n : R) (s : State) : Prop :=
  pitch s = 0 /\ roll s = 0 /\ yaw s = 0 /\ throttle s = 0.3
  /\ onGround s = false /\ z (velocity s) = 0
  /\ 0 <= x (velocity s) <= 0.33 * n
  /\ - 0.4905 * n <= y (velocity s) <= - 0.48 * n
  /\ 2 - 0.0122625 * (n * (n + 1)) <= y (position s)
     <= 2 - 0.012 * (n * (n + 1)).

(** Frames of 0.05 s with no key held. *)
Definition fallFrames (m : nat) : list (Keys * R) := repeat (noKeys, 0.05) m.

(** An aircraft in the air at 15 m/s, below the stall speed, throttle closed. *)
Definition simStalled : Sim :=
  mkSim (mkState (mkVector3 0 100 0) (mkVector3 15 0 0) 0 0 0 0 0 1.0 false)
        (mkVector3 0 0 0) (mkVector3 0 0 0) 0.

(** ** The clock

    [update] takes its time step from [clock.getDelta()].  Of a
    [THREE.Clock] the step reads whether it is running and the time of the
    last reading; a [new THREE.Clock()] starts itself on the first call of
    [getDelta]. *)
Record Clock := mkClock { running : bool; oldTime : R }.

(** [const clock = new THREE.Clock()] *)
Definition clock : Clock := mkClock false 0.

(** [clock.getDelta()] when [performance.now()] reads [newTime], in
    milliseconds: the seconds since the last reading, and 0 on the call
    that starts the clock. *)
Definition getDelta (newTime : R) (c : Clock) : R * Clock :=
  if running c
  then ((newTime - oldTime c) / 1000, mkClock true newTime)
  else (0, mkClock true newTime).

(** What is left of a frame when nothing is integrated: the clamp of an
    angle, the snap of the position to the ground clearance, the speed cap
    and the stop of a sinking velocity on the ground. *)
Definition clampTo (m a : R) : R := Math.max (- m) (Math.min m a).

Definition snapToGround (p : Vector3) : Vector3 :=
  if Rleb (y p) groundY then set_y p groundY else p.

Definition capSpeed (v : Vector3) : Vector3 :=
  if Rgtb (length v) MAX_SPEED then setLength v MAX_SPEED else v.

Definition stopSinking (p v : Vector3) : Vector3 :=
  if Rleb (y p) groundY
  then (if Rltb (y v) 0 then set_y v 0 else v)
  else v.

(** * Properties *)

(** ** Comparisons *)

Lemma Rltb_true (a b : R) : Rltb a b = true <-> a < b.
Proof.
  unfold Rltb. destruct (Rlt_dec a b); split; intros; try assumption;
    try reflexivity; try discriminate; contradiction.
Qed.

Lemma Rltb_false (a b : R) : Rltb a b = false <-> b <= a.
Proof.
  unfold Rltb. destruct (Rlt_dec a b); split; intros; try reflexivity;
    try discriminate; lra.
Qed.

Lemma Rleb_true (a b : R) : Rleb a b = true <-> a <= b.
Proof.
  unfold Rleb. destruct (Rle_dec a b); split; intros; try assumption;
    try reflexivity; try discriminate; contradiction.
Qed.

Lemma Rleb_false (a b : R) : Rleb a b = false <-> b < a.
Proof.
  unfold Rleb. destruct (Rle_dec a b); split; intros; try reflexivity;
    try discriminate; lra.
Qed.

(** ** [Math.pow] with a base in (0, 1] *)

Lemma pow_pos (b e : R) : 0 < Math.pow b e.
Proof. unfold Math.pow, Rpower. apply exp_pos. Qed.

Lemma pow_le_1 (b e : R) : 0 < b <= 1 -> 0 <= e -> Math.pow b e <= 1.
Proof.
  intros Hb He. unfold Math.pow.
  assert (H1 : Rpower 1 e = 1).
  { unfold Rpower. rewrite ln_1, Rmult_0_r. apply exp_0. }
  apply Rle_trans with (Rpower 1 e).
  - apply Rle_Rpower_l; assumption.
  - rewrite H1. apply Rle_refl.
Qed.

Lemma pow_1 (b : R) : 0 < b -> Math.pow b 1 = b.
Proof. intros Hb. unfold Math.pow. apply Rpower_1. assumption. Qed.

(** Multiplying by a factor in [0, 1] does not enlarge the magnitude. *)
Lemma Rabs_shrink (a k : R) : 0 <= k <= 1 -> Rabs (a * k) <= Rabs a.
Proof.
  intros Hk. rewrite Rabs_mult, (Rabs_pos_eq k) by lra.
  pose proof (Rabs_pos a). nra.
Qed.

(** Scaling by a factor in [0, 1] does not enlarge a square. *)
Lemma square_shrink (a k : R) : 0 <= k <= 1 -> a * k * (a * k) <= a * a.
Proof.
  intros Hk.
  assert (Hkk : 0 <= 1 - k * k) by nra.
  assert (Ha : 0 <= a * a) by nra.
  pose proof (Rmult_le_pos _ _ Ha Hkk). lra.
Qed.

Lemma Rabs_le_between (a m : R) : Rabs a <= m -> - m <= a <= m.
Proof. unfold Rabs. destruct (Rcase_abs a); lra. Qed.

(** ** Vectors *)

Lemma length_nonneg (v : Vector3) : 0 <= length v.
Proof. unfold length, Math.sqrt. apply sqrt_pos. Qed.

Lemma length_multiplyScalar (v : Vector3) (k : R) :
  length (multiplyScalar v k) = Rabs k * length v.
Proof.
  unfold length, multiplyScalar, Math.sqrt. cbn [x y z].
  replace (x v * k * (x v * k) + y v * k * (y v * k) + z v * k * (z v * k))
    with ((k * k) * (x v * x v + y v * y v + z v * z v)) by ring.
  rewrite sqrt_mult_alt by nra.
  f_equal. replace (k * k) with (Rsqr k) by reflexivity. apply sqrt_Rsqr_abs.
Qed.

(** A bound on the components bounds the length. *)
Lemma length_le (v : Vector3) (m : R) :
  0 <= m -> x v * x v + y v * y v + z v * z v <= m * m -> length v <= m.
Proof.
  intros Hm H. unfold length, Math.sqrt.
  rewrite <- (sqrt_square m) by assumption.
  apply sqrt_le_1_alt. assumption.
Qed.

(** Projections of updated records. *)
Ltac proj :=
  unfold set_position, set_velocity, set_pitch, set_roll, set_yaw,
    set_throttle, set_speed, set_gForce, set_onGround, set_y in *;
  cbn [position velocity pitch roll yaw throttle speed gForce onGround
       x y z _x _y _z _w
       state cameraTarget cameraCurrent prevAltitude
       altM vsi hudGforce stallWarning fst snd] in *.

Lemma when_true (f : State -> State) (s : State) : when true f s = f s.
Proof. reflexivity. Qed.

Lemma when_false (f : State -> State) (s : State) : when false f s = s.
Proof. reflexivity. Qed.

(** A conditional update leaves alone what the update leaves alone. *)
Lemma when_frame {A : Type} (P : State -> A) (c : bool) (f : State -> State)
    (s : State) :
  (forall t, P (f t) = P t) -> P (when c f s) = P s.
Proof. intros H. destruct c; [apply H | reflexivity]. Qed.

(** ** C10: what the reset writes *)

(** C10.  [resetAirplane] writes position, velocity, pitch, roll, yaw,
    throttle, speed and onGround, and nothing else: the result is the
    record of the defaults with the g-force of the state it was called on,
    so [gForce] is left as it was. *)
Theorem resetAirplane_frame (s : State) :
  resetAirplane s
  = mkState (mkVector3 0 2 0) (mkVector3 0 0 0) 0 0 0 0.3 0 (gForce s) true
  /\ gForce (resetAirplane s) = gForce s.
Proof. split; reflexivity. Qed.

(** ** C9: the g-force estimate *)

Lemma gForce_physics (dt : R) (s : State) :
  gForce (physics dt s) = Math.abs (liftAcc (measureSpeed s) / GRAVITY) + 1.0.
Proof. reflexivity. Qed.

Lemma state_update (keys : Keys) (delta : R) (w : Sim) :
  state (fst (update keys delta w))
  = physics (Math.min delta 0.05) (controls keys (Math.min delta 0.05) (state w)).
Proof. reflexivity. Qed.

Lemma stallWarning_update (keys : Keys) (delta : R) (w : Sim) :
  stallWarning (snd (update keys delta w))
  = isStalled (measureSpeed (controls keys (Math.min delta 0.05) (state w))).
Proof. reflexivity. Qed.

(** C9.  After every frame the g-force is at least 1.0, and it is exactly
    1.0 when the frame's stall flag is set (the lift term is then zero). *)
Theorem gForce_at_least_one (keys : Keys) (delta : R) (w : Sim) :
  1.0 <= gForce (state (tick keys delta w))
  /\ (stallWarning (snd (update keys delta w)) = true ->
      liftAcc (measureSpeed (controls keys (Math.min delta 0.05) (state w))) = 0
      /\ gForce (state (tick keys delta w)) = 1.0).
Proof.
  unfold tick. rewrite state_update, gForce_physics, stallWarning_update.
  split.
  - unfold Math.abs.
    pose proof (Rabs_pos
      (liftAcc (measureSpeed (controls keys (Math.min delta 0.05) (state w)))
       / GRAVITY)).
    lra.
  - intros Hst. unfold liftAcc. rewrite Hst. split; [reflexivity|].
    unfold Math.abs, Rdiv. rewrite Rmult_0_l, Rabs_R0. lra.
Qed.

(** ** C8: the guard of the drag block *)

Lemma dragScale_some (s : State) :
  0.01 < speed s ->
  dragScale s = Some (- (speed s * speed s * DRAG_FACTOR) / speed s).
Proof.
  intros H. unfold dragScale, Rgtb.
  apply Rltb_true in H. rewrite H. reflexivity.
Qed.

Lemma dragScale_none (s : State) : speed s <= 0.01 -> dragScale s = None.
Proof.
  intros H. unfold dragScale, Rgtb.
  apply Rltb_false in H. rewrite H. reflexivity.
Qed.

(** C8.  In the physics phase (the speed has just been measured from the
    velocity) the drag block runs only when [speed > 0.01]: then the
    divisor [speed] exceeds 0.01, the velocity is added with a negative
    factor (the term opposes the velocity) and the term has magnitude
    [speed^2 * DRAG_FACTOR]; otherwise [speed <= 0.01], nothing is divided
    and the acceleration is thrust, lift and gravity alone. *)
Theorem drag_guarded (s : State) :
  let p := measureSpeed s in
  match dragScale p with
  | Some k =>
      0.01 < speed p
      /\ k = - (speed p * speed p * DRAG_FACTOR) / speed p
      /\ k < 0
      /\ length (multiplyScalar (velocity p) k) = speed p * speed p * DRAG_FACTOR
      /\ acceleration p
         = set_y (addScaledVector (thrustAndLift p) (velocity p) k)
                 (y (addScaledVector (thrustAndLift p) (velocity p) k) - GRAVITY)
  | None =>
      speed p <= 0.01
      /\ acceleration p
         = set_y (thrustAndLift p) (y (thrustAndLift p) - GRAVITY)
  end.
Proof.
  intros p.
  destruct (Rlt_dec 0.01 (speed p)) as [Hgt | Hle].
  - assert (Hk : - (speed p * speed p * DRAG_FACTOR) / speed p
                 = - (speed p * DRAG_FACTOR)).
    { field. lra. }
    unfold acceleration. rewrite (dragScale_some p Hgt).
    repeat split; try assumption.
    + rewrite Hk. unfold DRAG_FACTOR. nra.
    + rewrite length_multiplyScalar, Hk.
      rewrite Rabs_Ropp, Rabs_pos_eq by (unfold DRAG_FACTOR; nra).
      unfold p, measureSpeed. cbn [speed velocity set_speed]. ring.
  - assert (H : speed p <= 0.01) by lra.
    unfold acceleration. rewrite (dragScale_none p H).
    split; [assumption | reflexivity].
Qed.

(** ** The frame in which the reset key is held *)

Lemma PI_gt_3 : 3 < Math.PI.
Proof. unfold Math.PI. pose proof PI2_3_2. lra. Qed.

Lemma MAX_PITCH_pos : 0 < MAX_PITCH.
Proof. unfold MAX_PITCH. pose proof PI_gt_3. lra. Qed.

Lemma MAX_ROLL_pos : 0 < MAX_ROLL.
Proof. unfold MAX_ROLL. pose proof PI_gt_3. lra. Qed.

(** The clamp [Math.max(-m, Math.min(m, a))]. *)
Lemma clamp_bound (m a : R) :
  0 <= m -> Rabs (Math.max (- m) (Math.min m a)) <= m.
Proof.
  intros Hm. unfold Math.max, Math.min, Rmax, Rmin.
  destruct (Rle_dec m a); destruct (Rle_dec (- m) _);
    apply Rabs_le; lra.
Qed.

Lemma clamp_id (m a : R) :
  Rabs a <= m -> Math.max (- m) (Math.min m a) = a.
Proof.
  intros Ha. apply Rabs_le_between in Ha.
  unfold Math.max, Math.min, Rmax, Rmin.
  destruct (Rle_dec m a); destruct (Rle_dec (- m) _); lra.
Qed.

Lemma applyControls_reset (keys : Keys) (dt : R) (s : State) :
  keys "Space"%string = true ->
  applyControls keys dt s = defaults (gForce s).
Proof.
  intros H. unfold applyControls. rewrite H. cbv zeta. rewrite when_true.
  match goal with
  | |- resetAirplane ?t = _ => change (resetAirplane t) with (defaults (gForce t))
  end.
  rewrite !(when_frame gForce) by reflexivity. reflexivity.
Qed.

Lemma controls_defaults (keys : Keys) (dt g : R) :
  autoLevel keys dt (yawCoupling dt (clampAngles (defaults g))) = defaults g.
Proof.
  assert (Hp : Math.max (- MAX_PITCH) (Math.min MAX_PITCH 0) = 0).
  { apply clamp_id. rewrite Rabs_R0. pose proof MAX_PITCH_pos. lra. }
  assert (Hr : Math.max (- MAX_ROLL) (Math.min MAX_ROLL 0) = 0).
  { apply clamp_id. rewrite Rabs_R0. pose proof MAX_ROLL_pos. lra. }
  unfold autoLevel, yawCoupling, clampAngles, defaults. proj.
  rewrite Hp, Hr.
  destruct (negb (keys "KeyA"%string) && negb (keys "KeyD"%string));
    destruct (negb (keys "KeyW"%string) && negb (keys "KeyS"%string));
    unfold when; proj; f_equal; ring.
Qed.

Lemma controls_reset (keys : Keys) (dt : R) (s : State) :
  keys "Space"%string = true ->
  controls keys dt s = defaults (gForce s).
Proof.
  intros H. unfold controls. rewrite (applyControls_reset keys dt s H).
  apply controls_defaults.
Qed.

(** With all three angles zero the orientation is the identity. *)
Lemma qTotal_level (s : State) :
  pitch s = 0 -> roll s = 0 -> yaw s = 0 -> qTotal s = mkQuaternion 0 0 0 1.
Proof.
  intros Hp Hr Hy. unfold qTotal, multiply, multiplyQuaternions,
    setFromAxisAngle, Math.sin, Math.cos.
  rewrite Hp, Hr, Hy.
  replace (0 / 2) with 0 by lra. rewrite sin_0, cos_0.
  cbn [x y z _x _y _z _w]. f_equal; ring.
Qed.

Lemma forward_level (s : State) :
  pitch s = 0 -> roll s = 0 -> yaw s = 0 -> forward s = mkVector3 1 0 0.
Proof.
  intros Hp Hr Hy. unfold forward. rewrite (qTotal_level s Hp Hr Hy).
  unfold applyQuaternion. cbn [x y z _x _y _z _w]. f_equal; ring.
Qed.

Lemma upWorld_level (s : State) :
  pitch s = 0 -> roll s = 0 -> yaw s = 0 -> upWorld s = mkVector3 0 1 0.
Proof.
  intros Hp Hr Hy. unfold upWorld. rewrite (qTotal_level s Hp Hr Hy).
  unfold applyQuaternion. cbn [x y z _x _y _z _w]. f_equal; ring.
Qed.

Lemma length_zero : length (mkVector3 0 0 0) = 0.
Proof.
  unfold length, Math.sqrt. proj.
  replace (0 * 0 + 0 * 0 + 0 * 0) with 0 by ring. apply sqrt_0.
Qed.

(** Acceleration of an aircraft flying level (all three angles zero). *)
Lemma acceleration_level (s : State) :
  pitch s = 0 -> roll s = 0 -> yaw s = 0 ->
  acceleration s
  = mkVector3 (throttle s * THRUST_ACCEL + x (velocity s) * dragFactor s)
              (liftAcc s + y (velocity s) * dragFactor s - GRAVITY)
              (z (velocity s) * dragFactor s).
Proof.
  intros Hp Hr Hy. unfold acceleration, thrustAndLift, dragFactor.
  rewrite (forward_level s Hp Hr Hy), (upWorld_level s Hp Hr Hy).
  destruct (dragScale s); unfold addScaledVector; proj; f_equal; ring.
Qed.

Lemma speedCap_id (s : State) :
  length (velocity s) <= MAX_SPEED -> speedCap s = s.
Proof.
  intros H. unfold speedCap, Rgtb.
  apply Rltb_false in H. rewrite H. reflexivity.
Qed.

Lemma groundConstraint_air (dt : R) (s : State) :
  groundY < y (position s) -> groundConstraint dt s = set_onGround false s.
Proof.
  intros H. unfold groundConstraint.
  apply Rleb_false in H. rewrite H. reflexivity.
Qed.

Lemma physics_defaults (dt g : R) :
  -1 <= dt <= 0.05 -> physics dt (defaults g) = afterReset dt.
Proof.
  intros Hdt.
  set (s0 := measureSpeed (defaults g)).
  assert (Hsp : speed s0 = 0) by (unfold s0, measureSpeed, defaults; proj; apply length_zero).
  assert (Hlift : liftAcc s0 = 0).
  { unfold liftAcc. destruct (isStalled s0); [reflexivity|]. rewrite Hsp. ring. }
  assert (Hacc : acceleration s0 = mkVector3 6.6 (- 9.81) 0).
  { rewrite acceleration_level by reflexivity. rewrite Hlift.
    unfold s0, measureSpeed, defaults, THRUST_ACCEL, GRAVITY. proj.
    f_equal; lra. }
  assert (Hg : Math.abs (0 / GRAVITY) + 1.0 = 1.0).
  { unfold Math.abs, Rdiv. rewrite Rmult_0_l, Rabs_R0. lra. }
  unfold physics. fold s0. rewrite Hlift, Hg.
  unfold integrateVelocity. rewrite Hacc.
  rewrite speedCap_id.
  - rewrite groundConstraint_air.
    + unfold integratePosition, afterReset, addScaledVector, s0, measureSpeed,
        defaults.
      proj. f_equal; [f_equal; lra | f_equal; lra | apply length_zero].
    + unfold s0, measureSpeed, defaults, groundY. proj. lra.
  - unfold s0, measureSpeed, defaults, addScaledVector, MAX_SPEED. proj.
    apply length_le; [lra|]. proj. nra.
Qed.

(** A frame with the reset key held ends in [afterReset], whatever the
    state before it. *)
Lemma reset_frame (keys : Keys) (delta : R) (w : Sim) :
  keys "Space"%string = true -> 0 <= delta ->
  state (tick keys delta w) = afterReset (Math.min delta 0.05).
Proof.
  intros Hk Hd. unfold tick. rewrite state_update, (controls_reset _ _ _ Hk).
  apply physics_defaults. unfold Math.min, Rmin.
  destruct (Rle_dec delta 0.05); lra.
Qed.

Lemma held_Space : held "Space" "Space"%string = true.
Proof. reflexivity. Qed.

Lemma min_dt (delta : R) : 0 <= delta -> 0 <= Math.min delta 0.05 <= 0.05.
Proof.
  intros H. unfold Math.min, Rmin. destruct (Rle_dec delta 0.05); lra.
Qed.

Lemma min_dt_small (delta : R) : delta <= 0.05 -> Math.min delta 0.05 = delta.
Proof. intros H. unfold Math.min. apply Rmin_left. assumption. Qed.

(** ** C2: the frame in which the reset key is held *)

(** C2, as the specification states it, fails on the very first frame:
    with the reset key held for a frame of 0.05 s the aircraft does not end
    the frame in the default state (it has started to fall, and it is no
    longer on the ground). *)
Lemma reset_frame_runs_physics :
  let s := state (tick (held "Space") 0.05 sim0) in
  ~ (position s = mkVector3 0 2 0 /\ velocity s = mkVector3 0 0 0
     /\ pitch s = 0 /\ roll s = 0 /\ yaw s = 0 /\ throttle s = 0.3
     /\ speed s = 0 /\ onGround s = true).
Proof.
  intros s H. unfold s in H.
  rewrite (reset_frame _ _ _ held_Space) in H by lra.
  unfold afterReset in H. proj.
  destruct H as (_ & _ & _ & _ & _ & _ & _ & H). discriminate H.
Qed.

(** C2, amended.  When the reset key is held, [resetAirplane] runs after
    the control keys and the rest of the frame runs from the defaults it
    wrote: the physics starts from the default state, and the frame ends
    with the angles zero, throttle 0.3, speed 0, g-force 1, velocity
    [(6.6 dt, -9.81 dt, 0)], position [(6.6 dt^2, 2 - 9.81 dt^2, 0)] and
    [onGround = false], whatever the state before the frame. *)
Theorem reset_frame_result (keys : Keys) (delta : R) (w : Sim) :
  keys "Space"%string = true -> 0 <= delta ->
  let dt := Math.min delta 0.05 in
  controls keys dt (state w) = resetAirplane (state w)
  /\ state (tick keys delta w)
     = mkState (mkVector3 (6.6 * dt * dt) (2 - 9.81 * dt * dt) 0)
               (mkVector3 (6.6 * dt) (- 9.81 * dt) 0)
               0 0 0 0.3 0 1.0 false.
Proof.
  intros Hk Hd dt. split.
  - apply controls_reset. assumption.
  - apply reset_frame; assumption.
Qed.

Lemma reset_frame_result_witness :
  held "Space" "Space"%string = true /\ 0 <= 0.05
  /\ state (tick (held "Space") 0.05 sim0)
     = mkState (mkVector3 (6.6 * Math.min 0.05 0.05 * Math.min 0.05 0.05)
                          (2 - 9.81 * Math.min 0.05 0.05 * Math.min 0.05 0.05) 0)
               (mkVector3 (6.6 * Math.min 0.05 0.05) (- 9.81 * Math.min 0.05 0.05) 0)
               0 0 0 0.3 0 1.0 false.
Proof.
  split; [reflexivity | split; [lra |]].
  apply (reset_frame_result (held "Space") 0.05 sim0); [reflexivity | lra].
Defined.

(** ** C3: the stall flag *)

(** Without the reset key the controls section touches only the angles
    and the throttle. *)
Lemma body_controls (keys : Keys) (dt : R) (s : State) :
  keys "Space"%string = false -> body (controls keys dt s) = body s.
Proof.
  intros H. unfold controls, autoLevel, yawCoupling, clampAngles, applyControls.
  rewrite H. cbv zeta.
  rewrite !(when_frame body) by reflexivity.
  change (body (set_yaw ?a ?t)) with (body t).
  change (body (set_roll ?a ?t)) with (body t).
  change (body (set_pitch ?a ?t)) with (body t).
  rewrite when_false, !(when_frame body) by reflexivity. reflexivity.
Qed.

Lemma controls_frame (keys : Keys) (dt : R) (s : State) :
  keys "Space"%string = false ->
  position (controls keys dt s) = position s
  /\ velocity (controls keys dt s) = velocity s
  /\ speed (controls keys dt s) = speed s
  /\ gForce (controls keys dt s) = gForce s
  /\ onGround (controls keys dt s) = onGround s.
Proof.
  intros H. pose proof (body_controls keys dt s H) as Hb.
  unfold body in Hb. injection Hb as -> -> -> -> ->.
  repeat split; reflexivity.
Qed.

Lemma isStalled_measured (s : State) :
  isStalled (measureSpeed s) = true
  <-> length (velocity s) < STALL_SPEED /\ onGround s = false.
Proof.
  unfold isStalled, measureSpeed. proj.
  rewrite andb_true_iff, Rltb_true, negb_true_iff. reflexivity.
Qed.

(** C3, as the specification states it, fails in a frame with the reset
    key held: the aircraft was airborne at the end of the frame before and
    its speed is below the stall speed, yet the flag is not set, because
    the reset has just written [onGround = true]. *)
Lemma stall_flag_reset_frame :
  let w := tick (held "Space") 0 sim0 in
  let keys := held "Space" in
  ~ (stallWarning (snd (update keys 0 w)) = true
     <-> length (velocity (controls keys (Math.min 0 0.05) (state w))) < STALL_SPEED
         /\ onGround (state w) = false).
Proof.
  intros w keys [_ H].
  assert (Hw : state w = afterReset (Math.min 0 0.05)).
  { apply reset_frame; [reflexivity | lra]. }
  assert (Hc : controls keys (Math.min 0 0.05) (state w) = defaults (gForce (state w))).
  { apply controls_reset. reflexivity. }
  rewrite stallWarning_update, Hc in H.
  assert (Hs : isStalled (measureSpeed (defaults (gForce (state w)))) = false).
  { unfold isStalled, measureSpeed, defaults. proj. apply andb_false_r. }
  rewrite Hs in H. apply diff_false_true. apply H. split.
  - unfold defaults. proj. rewrite length_zero. unfold STALL_SPEED. lra.
  - rewrite Hw. reflexivity.
Qed.

(** C3, amended.  The stall flag of a frame is set exactly when the reset
    key is not held, the speed (the length of the velocity the frame starts
    with, which is what the physics phase measures) is below [STALL_SPEED]
    and [onGround], as the frame before left it, is false.  With the reset
    key held the flag is not set. *)
Theorem stall_flag (keys : Keys) (delta : R) (w : Sim) :
  stallWarning (snd (update keys delta w)) = true
  <-> keys "Space"%string = false
      /\ length (velocity (state w)) < STALL_SPEED
      /\ onGround (state w) = false.
Proof.
  rewrite stallWarning_update, isStalled_measured.
  destruct (keys "Space"%string) eqn:Hk.
  - rewrite (controls_reset _ _ _ Hk). unfold defaults. proj.
    split; [intros [_ H] | intros [H _]]; discriminate H.
  - destruct (controls_frame keys (Math.min delta 0.05) (state w) Hk)
      as (_ & Hv & _ & _ & Hg).
    rewrite Hv, Hg. tauto.
Qed.

(** ** What each phase of the physics leaves alone *)

(** The ground constraint in one piece. *)
Lemma groundConstraint_eq (dt : R) (s : State) :
  groundConstraint dt s
  = if Rleb (y (position s)) groundY
    then mkState
           (mkVector3 (x (position s)) groundY (z (position s)))
           (mkVector3
              (x (velocity s) * Math.pow GROUND_FRICTION (dt * 60))
              (if Rltb (y (velocity s)) 0 then 0 else y (velocity s))
              (z (velocity s) * Math.pow GROUND_FRICTION (dt * 60)))
           (pitch s * Math.pow GROUND_ANGLE_DAMPING (dt * 60))
           (roll s * Math.pow GROUND_ANGLE_DAMPING (dt * 60))
           (yaw s) (throttle s) (speed s) (gForce s) true
    else set_onGround false s.
Proof.
  destruct s as [[px py pz] [vx vy vz] pi ro ya th sp gf og].
  unfold groundConstraint.
  cbv [position velocity pitch roll yaw throttle speed gForce onGround
       x y z set_position set_velocity set_pitch set_roll set_onGround
       set_y when].
  destruct (Rleb py groundY); [| reflexivity].
  destruct (Rltb vy 0); reflexivity.
Qed.

Lemma speedCap_frame (s : State) :
  position (speedCap s) = position s
  /\ pitch (speedCap s) = pitch s
  /\ roll (speedCap s) = roll s
  /\ onGround (speedCap s) = onGround s.
Proof.
  unfold speedCap. destruct (Rgtb (length (velocity s)) MAX_SPEED);
    repeat split; reflexivity.
Qed.

Lemma groundConstraint_position (dt : R) (s t : State) :
  position s = position t ->
  position (groundConstraint dt s) = position (groundConstraint dt t).
Proof.
  intros H. rewrite !groundConstraint_eq, H.
  destruct (Rleb (y (position t)) groundY); proj; [reflexivity | exact H].
Qed.

Lemma atGroundTest_frame (dt : R) (s : State) :
  position (atGroundTest dt s) = position s
  /\ pitch (atGroundTest dt s) = pitch s
  /\ roll (atGroundTest dt s) = roll s
  /\ onGround (atGroundTest dt s) = onGround s.
Proof.
  unfold atGroundTest.
  destruct (speedCap_frame (integrateVelocity dt (measureSpeed s)))
    as (-> & -> & -> & ->).
  repeat split; reflexivity.
Qed.

Lemma physics_unfold (dt : R) (s : State) :
  physics dt s
  = set_gForce (Math.abs (liftAcc (measureSpeed s) / GRAVITY) + 1.0)
      (integratePosition dt (groundConstraint dt (atGroundTest dt s))).
Proof. reflexivity. Qed.

(** The angles after the physics: damped on the ground, untouched in the
    air. *)
Lemma physics_angles (dt : R) (s : State) :
  pitch (physics dt s)
  = (if Rleb (y (position s)) groundY
     then pitch s * Math.pow GROUND_ANGLE_DAMPING (dt * 60) else pitch s)
  /\ roll (physics dt s)
     = (if Rleb (y (position s)) groundY
        then roll s * Math.pow GROUND_ANGLE_DAMPING (dt * 60) else roll s).
Proof.
  rewrite physics_unfold.
  destruct (atGroundTest_frame dt s) as (Hpos & Hp & Hr & _).
  unfold integratePosition. rewrite groundConstraint_eq, Hpos.
  destruct (Rleb (y (position s)) groundY); proj; rewrite Hp, Hr;
    split; reflexivity.
Qed.

(** ** C5: the angle clamp *)

Lemma damping_factor (b dt : R) :
  0 < b <= 1 -> 0 <= dt -> 0 <= Math.pow b (dt * 60) <= 1.
Proof.
  intros Hb Hdt. split.
  - apply Rlt_le, pow_pos.
  - apply pow_le_1; [assumption | lra].
Qed.

Lemma controls_angles (keys : Keys) (dt : R) (s : State) :
  0 <= dt ->
  Rabs (pitch (controls keys dt s)) <= MAX_PITCH
  /\ Rabs (roll (controls keys dt s)) <= MAX_ROLL.
Proof.
  intros Hdt. unfold controls.
  set (s1 := applyControls keys dt s).
  assert (Hp : Rabs (Math.max (- MAX_PITCH) (Math.min MAX_PITCH (pitch s1)))
               <= MAX_PITCH).
  { apply clamp_bound. apply Rlt_le, MAX_PITCH_pos. }
  assert (Hr : Rabs (Math.max (- MAX_ROLL) (Math.min MAX_ROLL (roll s1)))
               <= MAX_ROLL).
  { apply clamp_bound. apply Rlt_le, MAX_ROLL_pos. }
  assert (Hkp : 0 <= Math.pow PITCH_DAMPING (dt * 60) <= 1).
  { apply damping_factor; [unfold PITCH_DAMPING; lra | assumption]. }
  assert (Hkr : 0 <= Math.pow ROLL_DAMPING (dt * 60) <= 1).
  { apply damping_factor; [unfold ROLL_DAMPING; lra | assumption]. }
  unfold autoLevel, yawCoupling, clampAngles.
  destruct (negb (keys "KeyA"%string) && negb (keys "KeyD"%string));
    destruct (negb (keys "KeyW"%string) && negb (keys "KeyS"%string));
    unfold when; proj; split; try assumption;
    (eapply Rle_trans; [apply Rabs_shrink; assumption | assumption]).
Qed.

Lemma tick_angles (keys : Keys) (delta : R) (w : Sim) :
  0 <= delta ->
  Rabs (pitch (state (tick keys delta w))) <= MAX_PITCH
  /\ Rabs (roll (state (tick keys delta w))) <= MAX_ROLL.
Proof.
  intros Hd. unfold tick. rewrite state_update.
  pose proof (min_dt delta Hd) as Hdt.
  set (dt := Math.min delta 0.05) in *.
  destruct (controls_angles keys dt (state w)) as [Hp Hr]; [lra|].
  destruct (physics_angles dt (controls keys dt (state w))) as [-> ->].
  assert (Hk : 0 <= Math.pow GROUND_ANGLE_DAMPING (dt * 60) <= 1).
  { apply damping_factor; [unfold GROUND_ANGLE_DAMPING; lra | lra]. }
  destruct (Rleb (y (position (controls keys dt (state w)))) groundY);
    split; try assumption;
    (eapply Rle_trans; [apply Rabs_shrink; assumption | assumption]).
Qed.

Lemma run_angles (frames : list (Keys * R)) (w : Sim) :
  nonneg_deltas frames ->
  Rabs (pitch (state w)) <= MAX_PITCH /\ Rabs (roll (state w)) <= MAX_ROLL ->
  Rabs (pitch (state (run frames w))) <= MAX_PITCH
  /\ Rabs (roll (state (run frames w))) <= MAX_ROLL.
Proof.
  intros Hf. revert w. induction Hf as [| [keys delta] rest Hd _ IH];
    intros w Hw; cbn [run].
  - assumption.
  - apply IH. apply tick_angles. exact Hd.
Qed.

(** C5.  Starting from the initial state, after any sequence of frames
    (any keys, any non-negative clock delta, so any [dt] in [0, 0.05]) the
    pitch is within [MAX_PITCH] and the roll within [MAX_ROLL]. *)
Theorem angles_clamped (frames : list (Keys * R)) :
  nonneg_deltas frames ->
  Rabs (pitch (state (run frames sim0))) <= MAX_PITCH
  /\ Rabs (roll (state (run frames sim0))) <= MAX_ROLL.
Proof.
  intros Hf. apply run_angles; [assumption|].
  unfold sim0, state0. proj. rewrite Rabs_R0.
  split; apply Rlt_le; [apply MAX_PITCH_pos | apply MAX_ROLL_pos].
Qed.

Lemma angles_clamped_witness :
  nonneg_deltas [(held "KeyW", 0.05); (held "KeyD", 0.02)]
  /\ Rabs (pitch (state (run [(held "KeyW", 0.05); (held "KeyD", 0.02)] sim0)))
     <= MAX_PITCH
  /\ Rabs (roll (state (run [(held "KeyW", 0.05); (held "KeyD", 0.02)] sim0)))
     <= MAX_ROLL.
Proof.
  assert (H : nonneg_deltas [(held "KeyW", 0.05); (held "KeyD", 0.02)]).
  { repeat constructor; cbn [snd]; lra. }
  split; [exact H | apply (angles_clamped _ H)].
Defined.

(** ** C4: the speed ceiling *)

Lemma setLength_scale (v : Vector3) (l : R) :
  0 < length v -> setLength v l = multiplyScalar v (l / length v).
Proof.
  intros H. unfold setLength, normalize, divideScalar.
  destruct (Req_dec_T (length v) 0) as [H0 | _]; [lra|].
  unfold multiplyScalar. proj. f_equal; field; lra.
Qed.

Lemma length_setLength (v : Vector3) (l : R) :
  0 < length v -> 0 <= l -> length (setLength v l) = l.
Proof.
  intros H Hl. rewrite setLength_scale, length_multiplyScalar by assumption.
  assert (Hq : 0 <= l / length v).
  { apply Rmult_le_pos; [assumption | apply Rlt_le, Rinv_0_lt_compat, H]. }
  rewrite Rabs_pos_eq by assumption. field. lra.
Qed.

Lemma speedCap_over (s : State) :
  MAX_SPEED < length (velocity s) ->
  speedCap s = set_velocity (setLength (velocity s) MAX_SPEED) s.
Proof.
  intros H. unfold speedCap, Rgtb. apply Rltb_true in H. rewrite H. reflexivity.
Qed.

Lemma speedCap_bound (s : State) : length (velocity (speedCap s)) <= MAX_SPEED.
Proof.
  destruct (Rlt_dec MAX_SPEED (length (velocity s))) as [H | H].
  - rewrite (speedCap_over s H). proj.
    rewrite length_setLength; unfold MAX_SPEED in *; lra.
  - rewrite speedCap_id; lra.
Qed.

(** The ground constraint never lengthens the velocity. *)
Lemma groundConstraint_slows (dt : R) (s : State) :
  0 <= dt ->
  length (velocity (groundConstraint dt s)) <= length (velocity s).
Proof.
  intros Hdt.
  assert (Hk : 0 <= Math.pow GROUND_FRICTION (dt * 60) <= 1).
  { apply damping_factor; [unfold GROUND_FRICTION; lra | assumption]. }
  set (k := Math.pow GROUND_FRICTION (dt * 60)) in *.
  rewrite groundConstraint_eq. fold k.
  destruct (Rleb (y (position s)) groundY); [| apply Rle_refl].
  destruct (velocity s) as [vx vy vz].
  pose proof (square_shrink vx k Hk) as Hx.
  pose proof (square_shrink vz k Hk) as Hz.
  proj. destruct (Rltb vy 0);
    unfold length, Math.sqrt; proj; apply sqrt_le_1_alt; nra.
Qed.

Lemma tick_velocity (keys : Keys) (delta : R) (w : Sim) :
  let dt := Math.min delta 0.05 in
  velocity (state (tick keys delta w))
  = velocity (groundConstraint dt (atGroundTest dt (controls keys dt (state w)))).
Proof. reflexivity. Qed.


Lemma addScaledVector_0 (v a : Vector3) : addScaledVector v a 0 = v.
Proof. destruct v. unfold addScaledVector. proj. f_equal; ring. Qed.


(** ** Frames at particular time steps *)

Lemma applyControls_noKeys (dt : R) (s : State) : applyControls noKeys dt s = s.
Proof. reflexivity. Qed.

(** A frame without keys that starts in the default state. *)
Lemma free_frame_defaults (delta g : R) (tgt cur : Vector3) (alt : R) :
  -1 <= delta <= 0.05 ->
  state (tick noKeys delta (mkSim (defaults g) tgt cur alt)) = afterReset delta.
Proof.
  intros Hd. unfold tick. rewrite state_update, min_dt_small by lra. proj.
  unfold controls. rewrite applyControls_noKeys, controls_defaults.
  apply physics_defaults. assumption.
Qed.

Lemma integrateVelocity_0 (s : State) :
  velocity (integrateVelocity 0 s) = velocity s.
Proof. unfold integrateVelocity. proj. apply addScaledVector_0. Qed.

Lemma integratePosition_0 (s : State) :
  position (integratePosition 0 s) = position s.
Proof. unfold integratePosition. proj. apply addScaledVector_0. Qed.

(** ** C1: the ground floor *)

Lemma tick_unfold (keys : Keys) (delta : R) (w : Sim) :
  let dt := Math.min delta 0.05 in
  let s1 := controls keys dt (state w) in
  state (tick keys delta w)
  = set_gForce (Math.abs (liftAcc (measureSpeed s1) / GRAVITY) + 1.0)
      (integratePosition dt (groundConstraint dt (atGroundTest dt s1))).
Proof. reflexivity. Qed.

(** C1, amended.  Let [g] be the state at the ground test of a frame.
    If the test finds [position.y <= groundY], the frame ends on the
    ground with [position.y >= groundY], and a negative [velocity.y] has
    become zero.  If the test finds [position.y > groundY], the frame ends
    airborne at [position.y + velocity.y * dt], for which no floor is
    promised. *)
Theorem ground_floor (keys : Keys) (delta : R) (w : Sim) :
  0 <= delta ->
  let dt := Math.min delta 0.05 in
  let g := atGroundTest dt (controls keys dt (state w)) in
  let s' := state (tick keys delta w) in
  (y (position g) <= groundY ->
   onGround s' = true
   /\ groundY <= y (position s')
   /\ (y (velocity g) < 0 -> y (velocity s') = 0))
  /\ (groundY < y (position g) ->
      onGround s' = false
      /\ y (position s') = y (position g) + y (velocity g) * dt).
Proof.
  intros Hd dt g s'.
  pose proof (min_dt delta Hd) as Hdt. fold dt in Hdt.
  unfold s'. rewrite tick_unfold. fold dt. fold g.
  unfold integratePosition, addScaledVector. rewrite groundConstraint_eq.
  split.
  - intros Hy. apply Rleb_true in Hy. rewrite Hy.
    destruct (Rltb (y (velocity g)) 0) eqn:Hv; proj.
    + split; [reflexivity | split; [lra | reflexivity]].
    + apply Rltb_false in Hv.
      split; [reflexivity | split; [nra | intros; lra]].
  - intros Hy. apply Rleb_false in Hy. rewrite Hy. proj.
    split; reflexivity.
Qed.

Lemma atGroundTest_velocity_0 (s : State) :
  length (velocity s) <= MAX_SPEED -> velocity (atGroundTest 0 s) = velocity s.
Proof.
  intros H. unfold atGroundTest.
  assert (Hv : velocity (integrateVelocity 0 (measureSpeed s)) = velocity s).
  { rewrite integrateVelocity_0. reflexivity. }
  rewrite speedCap_id; rewrite Hv; [reflexivity | assumption].
Qed.

Lemma ground_floor_witness :
  0 <= 0
  /\ y (position (atGroundTest (Math.min 0 0.05)
                    (controls noKeys (Math.min 0 0.05) (state simTouchdown))))
     <= groundY
  /\ y (velocity (atGroundTest (Math.min 0 0.05)
                    (controls noKeys (Math.min 0 0.05) (state simTouchdown))))
     < 0
  /\ groundY <= y (position (state (tick noKeys 0 simTouchdown)))
  /\ y (velocity (state (tick noKeys 0 simTouchdown))) = 0.
Proof.
  destruct (controls_frame noKeys 0 (state simTouchdown) eq_refl)
    as (Hp & Hv & _).
  assert (Hpos : y (position (atGroundTest (Math.min 0 0.05)
                    (controls noKeys (Math.min 0 0.05) (state simTouchdown))))
                 <= groundY).
  { rewrite min_dt_small by lra.
    destruct (atGroundTest_frame 0 (controls noKeys 0 (state simTouchdown)))
      as (-> & _).
    rewrite Hp. unfold simTouchdown, groundY. proj. lra. }
  assert (Hvel : y (velocity (atGroundTest (Math.min 0 0.05)
                    (controls noKeys (Math.min 0 0.05) (state simTouchdown))))
                 < 0).
  { rewrite min_dt_small by lra.
    rewrite atGroundTest_velocity_0; rewrite Hv; unfold simTouchdown; proj.
    - lra.
    - apply length_le; unfold MAX_SPEED; proj; lra. }
  destruct (ground_floor noKeys 0 simTouchdown (Rle_refl 0)) as [Hground _].
  destruct (Hground Hpos) as (_ & Hfloor & Hzero).
  split; [lra | split; [exact Hpos | split; [exact Hvel | split]]].
  - exact Hfloor.
  - exact (Hzero Hvel).
Defined.

(** ** C6: auto-level of the roll *)

Lemma roll_controls (keys : Keys) (dt : R) (s : State) :
  keys "KeyA"%string = false -> keys "KeyD"%string = false ->
  keys "Space"%string = false ->
  roll (controls keys dt s)
  = Math.max (- MAX_ROLL) (Math.min MAX_ROLL (roll s))
    * Math.pow ROLL_DAMPING (dt * 60).
Proof.
  intros HA HD HS.
  unfold controls, autoLevel, yawCoupling, clampAngles, applyControls.
  rewrite HA, HD, HS. cbv zeta. cbn [negb andb].
  rewrite (when_frame roll) by reflexivity.
  rewrite !when_true, !when_false. proj.
  rewrite !(when_frame roll) by reflexivity. reflexivity.
Qed.

Lemma roll_tick (keys : Keys) (delta : R) (w : Sim) :
  keys "KeyA"%string = false -> keys "KeyD"%string = false ->
  keys "Space"%string = false ->
  delta <= 0.05 -> Rabs (roll (state w)) <= MAX_ROLL ->
  roll (state (tick keys delta w))
  = roll (state w) * Math.pow ROLL_DAMPING (delta * 60) * groundDamping delta w.
Proof.
  intros HA HD HS Hd Hr. unfold tick, groundDamping.
  rewrite state_update, min_dt_small by assumption.
  destruct (physics_angles delta (controls keys delta (state w))) as [_ ->].
  destruct (controls_frame keys delta (state w) HS) as (-> & _).
  rewrite (roll_controls keys delta (state w) HA HD HS), (clamp_id _ _ Hr).
  destruct (Rleb (y (position (state w))) groundY); ring.
Qed.

Lemma roll_tick_60Hz (keys : Keys) (w : Sim) :
  keys "KeyA"%string = false -> keys "KeyD"%string = false ->
  keys "Space"%string = false ->
  Rabs (roll (state w)) <= MAX_ROLL ->
  roll (state (tick keys (1 / 60) w))
  = roll (state w) * 0.97
    * (if Rleb (y (position (state w))) groundY then 0.9 else 1).
Proof.
  intros HA HD HS Hr.
  rewrite (roll_tick keys (1 / 60) w HA HD HS) by (assumption || lra).
  unfold groundDamping. replace (1 / 60 * 60) with 1 by lra.
  rewrite !pow_1 by (unfold ROLL_DAMPING, GROUND_ANGLE_DAMPING; lra).
  reflexivity.
Qed.

Lemma roll_run_60Hz (keys : Keys) (n : nat) (w : Sim) :
  keys "KeyA"%string = false -> keys "KeyD"%string = false ->
  keys "Space"%string = false ->
  Rabs (roll (state w)) <= MAX_ROLL ->
  roll (state (run (at60Hz keys n) w))
  = roll (state w) * 0.97 ^ n * 0.9 ^ groundFrames (at60Hz keys n) w.
Proof.
  intros HA HD HS. revert w. induction n as [| n IH]; intros w Hr.
  - cbn [at60Hz repeat run groundFrames pow]. ring.
  - unfold at60Hz in *. cbn [repeat run groundFrames].
    rewrite IH by (apply tick_angles; lra).
    rewrite (roll_tick_60Hz keys w HA HD HS Hr), pow_add.
    destruct (Rleb (y (position (state w))) groundY); cbn [pow]; ring.
Qed.

Lemma roll_bound_60Hz (keys : Keys) (n : nat) (w : Sim) :
  keys "KeyA"%string = false -> keys "KeyD"%string = false ->
  keys "Space"%string = false ->
  Rabs (roll (state w)) <= MAX_ROLL ->
  Rabs (roll (state (run (at60Hz keys n) w)))
  <= Rabs (roll (state w)) * 0.97 ^ n.
Proof.
  intros HA HD HS Hr. rewrite (roll_run_60Hz keys n w HA HD HS Hr).
  set (g := groundFrames (at60Hz keys n) w).
  assert (Hg : 0 <= 0.9 ^ g <= 1).
  { split; [apply pow_le; lra|].
    rewrite <- (pow1 g). apply pow_incr. lra. }
  assert (Hn : 0 <= 0.97 ^ n) by (apply pow_le; lra).
  rewrite !Rabs_mult, (Rabs_pos_eq (0.97 ^ n)), (Rabs_pos_eq (0.9 ^ g)) by lra.
  assert (Hrn : 0 <= Rabs (roll (state w)) * 0.97 ^ n).
  { apply Rmult_le_pos; [apply Rabs_pos | assumption]. }
  rewrite <- (Rmult_1_r (Rabs (roll (state w)) * 0.97 ^ n)) at 2.
  apply Rmult_le_compat_l; lra.
Qed.

Lemma half_within_MAX_ROLL : Rabs 0.5 <= MAX_ROLL.
Proof.
  rewrite Rabs_pos_eq by lra. unfold MAX_ROLL. pose proof PI_gt_3. lra.
Qed.

(** C6, as the specification states it, fails: after one second of frames
    at 60 Hz without keys, the roll that started at 0.5 rad is not within
    0.1 of 0.485 (it is below 0.09). *)
Lemma auto_level_after_one_second :
  ~ (Rabs (Rabs (roll (state (run (at60Hz noKeys 60) simRolled))) - 0.485)
     <= 0.1).
Proof.
  intros H. apply Rabs_le_between in H.
  pose proof (roll_bound_60Hz noKeys 60 simRolled eq_refl eq_refl eq_refl
                half_within_MAX_ROLL) as Hb.
  change (roll (state simRolled)) with 0.5 in Hb.
  rewrite (Rabs_pos_eq 0.5) in Hb by lra.
  assert (Hpow : 0.5 * 0.97 ^ 60 < 0.09) by lra.
  lra.
Qed.

(** C6, amended.  With no roll key and no reset, starting from a roll of
    0.5 rad: one airborne frame of 1/60 s multiplies the roll by 0.97 and
    leaves 0.485; after one second (60 such frames) the roll is
    [0.5 * 0.97^60] times 0.9 for each frame spent on the ground, so its
    magnitude is at most [0.5 * 0.97^60], which is below 0.09. *)
Theorem auto_level_decay (keys : Keys) (w : Sim) :
  keys "KeyA"%string = false -> keys "KeyD"%string = false ->
  keys "Space"%string = false ->
  roll (state w) = 0.5 ->
  (groundY < y (position (state w)) ->
   roll (state (tick keys (1 / 60) w)) = 0.485)
  /\ roll (state (run (at60Hz keys 60) w))
     = 0.5 * 0.97 ^ 60 * 0.9 ^ groundFrames (at60Hz keys 60) w
  /\ Rabs (roll (state (run (at60Hz keys 60) w))) <= 0.5 * 0.97 ^ 60
  /\ 0.5 * 0.97 ^ 60 < 0.09.
Proof.
  intros HA HD HS Hroll.
  assert (Hr : Rabs (roll (state w)) <= MAX_ROLL).
  { rewrite Hroll. apply half_within_MAX_ROLL. }
  split; [| split; [| split]].
  - intros Hair. rewrite (roll_tick_60Hz keys w HA HD HS Hr), Hroll.
    apply Rleb_false in Hair. rewrite Hair. lra.
  - rewrite (roll_run_60Hz keys 60 w HA HD HS Hr), Hroll. reflexivity.
  - pose proof (roll_bound_60Hz keys 60 w HA HD HS Hr) as Hb.
    rewrite Hroll, (Rabs_pos_eq 0.5) in Hb by lra. exact Hb.
  - lra.
Qed.

Lemma auto_level_decay_witness :
  noKeys "KeyA"%string = false /\ noKeys "KeyD"%string = false
  /\ noKeys "Space"%string = false /\ roll (state simRolled) = 0.5
  /\ groundY < y (position (state simRolled))
  /\ roll (state (tick noKeys (1 / 60) simRolled)) = 0.485
  /\ Rabs (roll (state (run (at60Hz noKeys 60) simRolled))) <= 0.5 * 0.97 ^ 60.
Proof.
  destruct (auto_level_decay noKeys simRolled eq_refl eq_refl eq_refl eq_refl)
    as (Hone & _ & Hbound & _).
  assert (Hair : groundY < y (position (state simRolled))).
  { unfold simRolled, groundY. proj. lra. }
  repeat (split; [reflexivity|]).
  split; [exact Hair | split; [exact (Hone Hair) | exact Hbound]].
Defined.

(** ** C1: a reachable frame that ends below the ground clearance

    From the initial state, with no key held and frames of 0.05 s, the
    aircraft drops from its spawn height of 2 m; it is stalled, so only
    thrust, drag and gravity act.  [Falling n] bounds the state after [n]
    such frames. *)

Lemma controls_level (dt : R) (s : State) :
  pitch s = 0 -> roll s = 0 -> yaw s = 0 -> controls noKeys dt s = s.
Proof.
  destruct s as [p v pi ro ya th sp gf og]. proj. intros -> -> ->.
  assert (Hp : Math.max (- MAX_PITCH) (Math.min MAX_PITCH 0) = 0).
  { apply clamp_id. rewrite Rabs_R0. pose proof MAX_PITCH_pos. lra. }
  assert (Hr : Math.max (- MAX_ROLL) (Math.min MAX_ROLL 0) = 0).
  { apply clamp_id. rewrite Rabs_R0. pose proof MAX_ROLL_pos. lra. }
  unfold controls. rewrite applyControls_noKeys.
  unfold autoLevel, yawCoupling, clampAngles, noKeys. proj.
  rewrite Hp, Hr. cbn [negb andb]. unfold when. proj. f_equal; ring.
Qed.

Lemma dragFactor_bounds (s : State) :
  0 <= speed s -> - (DRAG_FACTOR * speed s) <= dragFactor s <= 0.
Proof.
  intros Hs. unfold dragFactor.
  destruct (Rlt_dec 0.01 (speed s)) as [Hgt | Hle].
  - rewrite (dragScale_some s Hgt).
    replace (- (speed s * speed s * DRAG_FACTOR) / speed s)
      with (- (DRAG_FACTOR * speed s)) by (field; lra).
    unfold DRAG_FACTOR. lra.
  - rewrite (dragScale_none s) by lra. unfold DRAG_FACTOR. nra.
Qed.

(** One more frame of the fall, as long as the aircraft is above the
    ground at the frame's ground test (which [n <= 8] ensures). *)
Lemma falling_step (n : R) (s : State) :
  1 <= n <= 8 -> Falling n s ->
  Falling (n + 1) (physics 0.05 (controls noKeys 0.05 s)).
Proof.
  intros Hn (Hp & Hr & Hy & Ht & Hg & Hz & Hvx & Hvy & Hpos).
  rewrite (controls_level 0.05 s Hp Hr Hy), physics_unfold.
  unfold atGroundTest.
  set (s0 := measureSpeed s).
  assert (Hv0 : velocity s0 = velocity s) by reflexivity.
  assert (Hp0 : position s0 = position s) by reflexivity.
  assert (HL : 0 <= speed s0 <= x (velocity s) - y (velocity s)).
  { unfold s0, measureSpeed. proj. split; [apply length_nonneg |].
    apply length_le; [lra | rewrite Hz; nra]. }
  assert (Hstall : isStalled s0 = true).
  { unfold isStalled. apply andb_true_iff. split.
    - apply Rltb_true. unfold STALL_SPEED. lra.
    - change (onGround s0) with (onGround s). rewrite Hg. reflexivity. }
  assert (Hlift : liftAcc s0 = 0).
  { unfold liftAcc. rewrite Hstall. reflexivity. }
  pose proof (dragFactor_bounds s0 (proj1 HL)) as Hk.
  unfold DRAG_FACTOR in Hk.
  assert (Hacc : acceleration s0
                 = mkVector3 (6.6 + x (velocity s) * dragFactor s0)
                             (y (velocity s) * dragFactor s0 - 9.81) 0).
  { rewrite acceleration_level by assumption.
    rewrite Hlift, Hv0, Hz. change (throttle s0) with (throttle s).
    rewrite Ht. unfold THRUST_ACCEL, GRAVITY. f_equal; lra. }
  set (k := dragFactor s0) in *.
  assert (Hk' : - 0.012 <= k <= 0) by lra.
  assert (Hxk : - 0.012 * x (velocity s) <= x (velocity s) * k <= 0) by nra.
  assert (Hyk : 0 <= y (velocity s) * k <= 0.05) by nra.
  set (s1 := integrateVelocity 0.05 s0).
  assert (Hv1 : velocity s1
                = mkVector3 (x (velocity s) + (6.6 + x (velocity s) * k) * 0.05)
                            (y (velocity s) + (y (velocity s) * k - 9.81) * 0.05)
                            (z (velocity s) + 0 * 0.05)).
  { unfold s1, integrateVelocity. proj. rewrite Hacc, Hv0. reflexivity. }
  assert (Hcap : speedCap s1 = s1).
  { apply speedCap_id. rewrite Hv1. unfold MAX_SPEED.
    apply length_le; [lra |]. proj. rewrite Hz. nra. }
  rewrite Hcap, groundConstraint_air
    by (change (position s1) with (position s); unfold groundY; nra).
  unfold Falling, integratePosition, addScaledVector. proj.
  rewrite Hv1. change (position s1) with (position s). proj.
  change (pitch s1) with (pitch s). change (roll s1) with (roll s).
  change (yaw s1) with (yaw s). change (throttle s1) with (throttle s).
  repeat split; try assumption; try (rewrite Hz; lra); nra.
Qed.

Lemma falling_tick (n : R) (w : Sim) :
  1 <= n <= 8 -> Falling n (state w) ->
  Falling (n + 1) (state (tick noKeys 0.05 w)).
Proof.
  intros Hn Hf. unfold tick. rewrite state_update, min_dt_small by lra.
  apply falling_step; assumption.
Qed.

Lemma falling_run (m : nat) (n : R) (w : Sim) :
  1 <= n -> n + INR m <= 9 -> Falling n (state w) ->
  Falling (n + INR m) (state (run (fallFrames m) w)).
Proof.
  revert n w. induction m as [| m IH]; intros n w Hn Hm Hf.
  - cbn [fallFrames repeat run INR]. rewrite Rplus_0_r. assumption.
  - rewrite S_INR in *. pose proof (pos_INR m) as Hpos.
    unfold fallFrames in *. cbn [repeat run].
    replace (n + (INR m + 1)) with ((n + 1) + INR m) by ring.
    apply IH; [lra | lra |].
    apply falling_tick; [lra | assumption].
Qed.

Lemma falling_first_frame : Falling 1 (state (tick noKeys 0.05 sim0)).
Proof.
  unfold sim0, state0. fold (defaults 1.0).
  rewrite free_frame_defaults by lra.
  unfold Falling, afterReset. proj.
  repeat split; try reflexivity; lra.
Qed.

Lemma reachable_run (frames : list (Keys * R)) (w : Sim) :
  nonneg_deltas frames -> reachable w -> reachable (run frames w).
Proof.
  intros Hf. revert w. induction Hf as [| [keys delta] rest Hd _ IH];
    intros w Hw; cbn [run].
  - assumption.
  - apply IH. apply reachable_tick; assumption.
Qed.

Lemma fallFrames_nonneg (m : nat) : nonneg_deltas (fallFrames m).
Proof.
  unfold nonneg_deltas, fallFrames. apply Forall_forall.
  intros f Hf. apply repeat_spec in Hf. subst f. cbn [snd]. lra.
Qed.

Lemma falling_after_8 : Falling 8 (state (run (fallFrames 8) sim0)).
Proof.
  change (run (fallFrames 8) sim0)
    with (run (fallFrames 7) (tick noKeys 0.05 sim0)).
  replace 8 with (1 + INR 7) by (cbn [INR]; lra).
  apply falling_run; [lra | cbn [INR]; lra | apply falling_first_frame].
Qed.

(** C1, as the specification states it, fails at a reachable state: after
    eight frames of 0.05 s with no key held the aircraft, dropped from its
    spawn height, is still above the ground clearance, and the ninth such
    frame ends with [position.y] below [groundY]. *)
Lemma ground_floor_violated :
  reachable (run (fallFrames 8) sim0)
  /\ 0 <= 0.05
  /\ y (position (state (tick noKeys 0.05 (run (fallFrames 8) sim0)))) < groundY.
Proof.
  split; [| split; [lra |]].
  - apply reachable_run; [apply fallFrames_nonneg | apply reachable_init].
  - pose proof (falling_tick 8 (run (fallFrames 8) sim0)
                  ltac:(lra) falling_after_8) as Hf.
    destruct Hf as (_ & _ & _ & _ & _ & _ & _ & _ & Hpos).
    unfold groundY. lra.
Qed.

(** ** C9 at a stalled frame *)

Lemma gForce_at_least_one_witness :
  stallWarning (snd (update noKeys 0.05 simStalled)) = true
  /\ 1.0 <= gForce (state (tick noKeys 0.05 simStalled))
  /\ gForce (state (tick noKeys 0.05 simStalled)) = 1.0.
Proof.
  assert (Hst : stallWarning (snd (update noKeys 0.05 simStalled)) = true).
  { rewrite stallWarning_update. apply isStalled_measured.
    destruct (controls_frame noKeys (Math.min 0.05 0.05) (state simStalled)
                eq_refl) as (_ & -> & _ & _ & ->).
    split; [| reflexivity].
    apply Rle_lt_trans with 15; [| unfold STALL_SPEED; lra].
    apply length_le; [lra |]. unfold simStalled. proj. lra. }
  destruct (gForce_at_least_one noKeys 0.05 simStalled) as [Hge Hone].
  destruct (Hone Hst) as [_ Heq].
  split; [exact Hst | split; [exact Hge | exact Heq]].
Defined.

(** ** The random number generator *)

Example mulberry32_42 :
  mulberry32_stream 3 42 = [2581720956; 1925393290; 3661312704]%Z.
Proof. vm_compute. reflexivity. Qed.

Lemma toInt32_range (n : Z) : (- 2 ^ 31 <= toInt32 n < 2 ^ 31)%Z.
Proof.
  unfold toInt32. pose proof (Z.mod_pos_bound (n + 2 ^ 31) (2 ^ 32)). lia.
Qed.

(** Two integers convert to the same 32-bit integer exactly when they are
    congruent modulo 2^32. *)
Lemma toInt32_cong (a b : Z) :
  toInt32 a = toInt32 b <-> (a mod 2 ^ 32 = b mod 2 ^ 32)%Z.
Proof.
  unfold toInt32. rewrite (Z.cong_iff_ex a b). split.
  - intros H.
    assert (H' : ((a + 2 ^ 31) mod 2 ^ 32 = (b + 2 ^ 31) mod 2 ^ 32)%Z) by lia.
    apply Z.cong_iff_ex in H'. destruct H' as [k Hk]. exists k. lia.
  - intros [k Hk].
    assert (H' : ((a + 2 ^ 31) mod 2 ^ 32 = (b + 2 ^ 31) mod 2 ^ 32)%Z).
    { apply Z.cong_iff_ex. exists k. lia. }
    lia.
Qed.

Lemma toInt32_idem (n : Z) : toInt32 (toInt32 n) = toInt32 n.
Proof.
  apply toInt32_cong. unfold toInt32. apply Z.cong_iff_ex.
  exists (- ((n + 2 ^ 31) / 2 ^ 32))%Z.
  pose proof (Z.div_mod (n + 2 ^ 31) (2 ^ 32)). lia.
Qed.

Lemma toInt32_add_l (a c : Z) : toInt32 (toInt32 a + c) = toInt32 (a + c).
Proof.
  apply toInt32_cong. unfold toInt32. apply Z.cong_iff_ex.
  exists (- ((a + 2 ^ 31) / 2 ^ 32))%Z.
  pose proof (Z.div_mod (a + 2 ^ 31) (2 ^ 32)). lia.
Qed.

Lemma mulberry32_next_seed (seed : Z) :
  fst (mulberry32_next seed) = toInt32 (seed + 0x6d2b79f5).
Proof. unfold mulberry32_next. cbn [fst]. apply toInt32_add_l. Qed.

Lemma mulberry32_seed_S (n : nat) (seed : Z) :
  mulberry32_seed (S n) seed = toInt32 (seed + Z.of_nat (S n) * 0x6d2b79f5).
Proof.
  revert seed. induction n as [| n IH]; intros seed.
  - cbn [mulberry32_seed]. rewrite mulberry32_next_seed. f_equal; lia.
  - change (mulberry32_seed (S (S n)) seed)
      with (mulberry32_seed (S n) (fst (mulberry32_next seed))).
    rewrite IH, mulberry32_next_seed, toInt32_add_l. f_equal; lia.
Qed.

Lemma rngValue_range (u : Z) : (0 <= u < 2 ^ 32)%Z -> 0 <= rngValue u < 1.
Proof.
  intros [H0 H1]. unfold rngValue.
  apply IZR_le in H0. apply IZR_lt in H1.
  change (IZR (2 ^ 32)) with 4294967296 in H1.
  split.
  - apply Rmult_le_pos; [exact H0 | lra].
  - apply Rmult_lt_reg_r with 4294967296; [lra |].
    unfold Rdiv. rewrite Rmult_assoc, Rinv_l by lra. lra.
Qed.

Lemma mulberry32_next_range (seed : Z) :
  (0 <= snd (mulberry32_next seed) < 2 ^ 32)%Z.
Proof.
  unfold mulberry32_next, toUint32. cbn [snd]. apply Z.mod_pos_bound. lia.
Qed.

(** The number drawn by a call, whatever the state: in [0, 1). *)
Lemma rng_draw (seed s1 u : Z) :
  mulberry32_next seed = (s1, u) -> 0 <= rngValue u < 1.
Proof.
  intros E. apply rngValue_range.
  pose proof (mulberry32_next_range seed) as H. rewrite E in H. exact H.
Qed.

(** X1.  Whatever the seed, every call of the generator returns a number
    in [0, 1): an unsigned 32-bit integer divided by 2^32. *)
Theorem mulberry32_unit_interval (seed : Z) :
  let u := snd (mulberry32_next seed) in
  (0 <= u < 2 ^ 32)%Z /\ 0 <= rngValue u < 1.
Proof.
  intros u. split.
  - apply mulberry32_next_range.
  - apply rngValue_range, mulberry32_next_range.
Qed.

(** X2.  The generator's state is a counter: after [n >= 1] calls the
    variable [seed] holds the initial seed plus [n] times 0x6d2b79f5,
    converted to a signed 32-bit integer. *)
Theorem mulberry32_state (n : nat) (seed : Z) :
  (0 < n)%nat ->
  mulberry32_seed n seed = toInt32 (seed + Z.of_nat n * 0x6d2b79f5)
  /\ (- 2 ^ 31 <= mulberry32_seed n seed < 2 ^ 31)%Z.
Proof.
  intros Hn. destruct n as [| n]; [lia |].
  rewrite mulberry32_seed_S. split; [reflexivity | apply toInt32_range].
Qed.

Lemma mulberry32_state_witness :
  (0 < 2)%nat
  /\ mulberry32_seed 2 42 = toInt32 (42 + Z.of_nat 2 * 0x6d2b79f5).
Proof.
  split; [lia | apply (mulberry32_state 2 42); lia].
Defined.

(** X3.  The state has full period: after [n] and after [m] calls (both
    at least one) the state is the same exactly when [n] and [m] are
    congruent modulo 2^32, so no state repeats within 2^32 calls. *)
Theorem mulberry32_full_period (n m : nat) (seed : Z) :
  (0 < n)%nat -> (0 < m)%nat ->
  (mulberry32_seed n seed = mulberry32_seed m seed
   <-> (Z.of_nat n mod 2 ^ 32 = Z.of_nat m mod 2 ^ 32)%Z).
Proof.
  intros Hn Hm.
  destruct n as [| n]; [lia |]. destruct m as [| m]; [lia |].
  rewrite !mulberry32_seed_S, toInt32_cong.
  rewrite (Z.cong_iff_ex (Z.of_nat (S n))), Z.cong_iff_ex.
  split; intros [k Hk].
  - assert (Hd : (2 ^ 32 | (Z.of_nat (S n) - Z.of_nat (S m)) * 0x6d2b79f5)%Z).
    { exists k. lia. }
    rewrite Z.mul_comm in Hd. apply Z.gauss in Hd; [| reflexivity].
    destruct Hd as [j Hj]. exists j. exact Hj.
  - exists (k * 0x6d2b79f5)%Z. nia.
Qed.

Lemma mulberry32_full_period_witness :
  (0 < 1)%nat /\ (0 < 2)%nat
  /\ (mulberry32_seed 1 42 = mulberry32_seed 2 42
      <-> (Z.of_nat 1 mod 2 ^ 32 = Z.of_nat 2 mod 2 ^ 32)%Z).
Proof.
  split; [lia | split; [lia |]].
  apply (mulberry32_full_period 1 2 42); lia.
Defined.

(** X4.  Only the seed modulo 2^32 matters: seeds that differ by a
    multiple of 2^32 give the same numbers and the same states. *)
Theorem mulberry32_seed_mod (n : nat) (seed k : Z) :
  mulberry32_stream n (seed + k * 2 ^ 32) = mulberry32_stream n seed
  /\ mulberry32_next (seed + k * 2 ^ 32) = mulberry32_next seed.
Proof.
  assert (H : toInt32 (seed + k * 2 ^ 32) = toInt32 seed).
  { apply toInt32_cong. apply Z.cong_iff_ex. exists k. lia. }
  assert (Hn : mulberry32_next (seed + k * 2 ^ 32) = mulberry32_next seed).
  { unfold mulberry32_next. rewrite H. reflexivity. }
  split; [| exact Hn].
  destruct n as [| n]; [reflexivity |].
  cbn [mulberry32_stream]. rewrite Hn. reflexivity.
Qed.

(** ** Trees and clouds *)

(** X5.  The loop of [addTrees] places at most one tree per iteration, and
    every tree it places is at least 700 from the origin (the runway area
    stays clear), within 4800 of it along each axis, with a trunk height
    in [8, 18), standing on the plane [y = 0] (the group is at half the
    trunk height) and a cone of leaves of radius in [4, 6). *)
Theorem addTrees_placement (iterations : nat) (seed : Z) :
  (List.length (addTreesLoop iterations seed) <= iterations)%nat
  /\ Forall treeOK (addTreesLoop iterations seed).
Proof.
  revert seed. induction iterations as [| n IH]; intros seed.
  - split; [apply Nat.le_refl | constructor].
  - cbn [addTreesLoop].
    destruct (mulberry32_next seed) as [s1 u1] eqn:E1.
    destruct (mulberry32_next s1) as [s2 u2] eqn:E2.
    pose proof (rng_draw _ _ _ E1) as H1.
    pose proof (rng_draw _ _ _ E2) as H2.
    destruct (Rltb _ 700) eqn:Hd.
    + destruct (IH s2) as [Hl Hf]. split; [lia | exact Hf].
    + apply Rltb_false in Hd.
      destruct (mulberry32_next s2) as [s3 u3] eqn:E3.
      destruct (mulberry32_next s3) as [s4 u4] eqn:E4.
      pose proof (rng_draw _ _ _ E3) as H3.
      pose proof (rng_draw _ _ _ E4) as H4.
      destruct (IH s4) as [Hl Hf]. split; [cbn [List.length]; lia |].
      constructor; [| exact Hf].
      unfold treeOK, TERRAIN_SIZE in *.
      cbn [treePosition trunkHeight leavesRadius leavesHeight leavesY x y z].
      repeat split; try exact Hd; lra.
Qed.

Lemma floor_of_five (a : R) : 0 <= a < 1 -> (0 <= Math_floor (a * 5) <= 4)%Z.
Proof.
  intros Ha. unfold Math_floor.
  destruct (base_Int_part (a * 5)) as [Hlo Hhi].
  split.
  - assert (H : IZR (-1) < IZR (Int_part (a * 5))) by (simpl IZR; lra).
    apply lt_IZR in H. lia.
  - assert (H : IZR (Int_part (a * 5)) < IZR 5) by (simpl IZR; lra).
    apply lt_IZR in H. lia.
Qed.

Lemma cloudPuffs_spec (n : nat) (seed : Z) :
  List.length (fst (cloudPuffs n seed)) = n
  /\ Forall puffOK (fst (cloudPuffs n seed)).
Proof.
  revert seed. induction n as [| n IH]; intros seed.
  - split; [reflexivity | constructor].
  - cbn [cloudPuffs].
    destruct (mulberry32_next seed) as [s1 u1] eqn:E1.
    destruct (mulberry32_next s1) as [s2 u2] eqn:E2.
    destruct (mulberry32_next s2) as [s3 u3] eqn:E3.
    destruct (mulberry32_next s3) as [s4 u4] eqn:E4.
    pose proof (rng_draw _ _ _ E1) as H1.
    pose proof (rng_draw _ _ _ E2) as H2.
    pose proof (rng_draw _ _ _ E3) as H3.
    pose proof (rng_draw _ _ _ E4) as H4.
    destruct (IH s4) as [Hl Hf].
    destruct (cloudPuffs n s4) as [more s5]. cbn [fst List.length] in *.
    split; [lia |]. constructor; [| exact Hf].
    unfold puffOK. cbn [puffRadius puffPosition x y z].
    repeat split; lra.
Qed.

(** X6.  The loop of [addClouds] places one cloud per iteration; every
    cloud has between 3 and 7 puffs, each of radius in [40, 100) and
    offset less than 60, 15 and 40 along the axes, and sits between 600
    and 1400 high, within 4000 of the origin along each horizontal axis. *)
Theorem addClouds_placement (iterations : nat) (seed : Z) :
  List.length (addCloudsLoop iterations seed) = iterations
  /\ Forall cloudOK (addCloudsLoop iterations seed).
Proof.
  revert seed. induction iterations as [| n IH]; intros seed.
  - split; [reflexivity | constructor].
  - cbn [addCloudsLoop].
    destruct (mulberry32_next seed) as [s0 u0] eqn:E0.
    pose proof (floor_of_five _ (rng_draw _ _ _ E0)) as Hn.
    set (numPuffs := (3 + Math_floor (rngValue u0 * 5))%Z) in *.
    destruct (cloudPuffs_spec (Z.to_nat numPuffs) s0) as [Hlen Hpuffs].
    destruct (cloudPuffs (Z.to_nat numPuffs) s0) as [ps sp].
    cbn [fst] in Hlen, Hpuffs.
    destruct (mulberry32_next sp) as [s1 u1] eqn:E1.
    destruct (mulberry32_next s1) as [s2 u2] eqn:E2.
    destruct (mulberry32_next s2) as [s3 u3] eqn:E3.
    pose proof (rng_draw _ _ _ E1) as H1.
    pose proof (rng_draw _ _ _ E2) as H2.
    pose proof (rng_draw _ _ _ E3) as H3.
    destruct (IH s3) as [Hl Hf].
    split; [cbn [List.length]; lia |]. constructor; [| exact Hf].
    unfold cloudOK. cbn [puffs cloudPosition x y z].
    split; [rewrite Hlen; unfold numPuffs; lia |].
    split; [exact Hpuffs |]. repeat split; lra.
Qed.

(** ** Terrain and runway *)

Lemma sin_cos_product_bound (a b : R) :
  -1 <= a <= 1 -> -1 <= b <= 1 -> -1 <= a * b <= 1.
Proof. intros Ha Hb. nra. Qed.

(** X7.  The terrain never rises or falls by more than 105 times the
    blend factor [max(0, (dist - 600) / 2000)]; in particular it is flat,
    at height 0, within 600 of the origin, and coloured as grass there. *)
Theorem terrain_flat_near_origin (vx vz : R) :
  let dist := Math.sqrt (vx * vx + vz * vz) in
  Rabs (buildTerrain_height vx vz) <= 105 * Math.max 0 ((dist - 600) / 2000)
  /\ (dist <= 600 ->
      buildTerrain_height vx vz = 0
      /\ buildTerrain_color (buildTerrain_height vx vz) = [0.22; 0.45; 0.12]).
Proof.
  intros dist.
  assert (Hblend : 0 <= Math.max 0 ((dist - 600) / 2000)).
  { unfold Math.max. apply Rmax_l. }
  assert (Hbound : Rabs (buildTerrain_height vx vz)
                   <= 105 * Math.max 0 ((dist - 600) / 2000)).
  { unfold buildTerrain_height. fold dist.
    set (blend := Math.max 0 ((dist - 600) / 2000)) in *.
    unfold Math.sin, Math.cos.
    pose proof (sin_cos_product_bound _ _ (SIN_bound (vx * 0.003))
                  (COS_bound (vz * 0.003))) as H1.
    pose proof (sin_cos_product_bound _ _ (SIN_bound (vx * 0.009 + 1.3))
                  (COS_bound (vz * 0.007))) as H2.
    pose proof (sin_cos_product_bound _ _ (SIN_bound (vx * 0.02))
                  (SIN_bound (vz * 0.02))) as H3.
    rewrite Rabs_mult, (Rabs_pos_eq blend) by assumption.
    apply Rmult_le_compat_r; [assumption |].
    apply Rabs_le. lra. }
  split; [exact Hbound |].
  intros Hd.
  assert (H0 : Math.max 0 ((dist - 600) / 2000) = 0).
  { unfold Math.max. apply Rmax_left. lra. }
  rewrite H0, Rmult_0_r in Hbound.
  assert (Hz : buildTerrain_height vx vz = 0).
  { pose proof (Rabs_pos (buildTerrain_height vx vz)).
    destruct (Req_dec (buildTerrain_height vx vz) 0) as [E | E]; [exact E |].
    apply Rabs_pos_lt in E. lra. }
  split; [exact Hz |].
  rewrite Hz. unfold buildTerrain_color.
  assert (Hg : Rltb 0 2 = true) by (apply Rltb_true; lra).
  rewrite Hg. reflexivity.
Qed.

Lemma terrain_flat_near_origin_witness :
  Math.sqrt (0 * 0 + 0 * 0) <= 600 /\ buildTerrain_height 0 0 = 0.
Proof.
  assert (H : Math.sqrt (0 * 0 + 0 * 0) <= 600).
  { unfold Math.sqrt. replace (0 * 0 + 0 * 0) with 0 by ring.
    rewrite sqrt_0. lra. }
  destruct (terrain_flat_near_origin 0 0) as [_ Hflat].
  split; [exact H | exact (proj1 (Hflat H))].
Defined.

(** X8.  The loop of [buildRunway] ends after 19 centre-line marks, at
    [z = -280, -250, ..., 260] (the last one is not at 280); each mark, 12
    long, lies within the 600-long runway and 18 clear of the next. *)
Theorem centerLine_marks (fuel : nat) :
  (19 <= fuel)%nat ->
  centerLine fuel (-280)
  = [-280; -250; -220; -190; -160; -130; -100; -70; -40; -10;
     20; 50; 80; 110; 140; 170; 200; 230; 260]%Z
  /\ Forall (fun z => (-300 <= z - 6 /\ z + 6 <= 300)%Z)
            (centerLine fuel (-280)).
Proof.
  intros Hf.
  assert (E : centerLine fuel (-280)
              = [-280; -250; -220; -190; -160; -130; -100; -70; -40; -10;
                 20; 50; 80; 110; 140; 170; 200; 230; 260]%Z).
  { do 19 (destruct fuel as [| fuel]; [lia |]).
    destruct fuel; reflexivity. }
  split; [exact E |].
  rewrite E. repeat constructor; lia.
Qed.

Lemma centerLine_marks_witness :
  (19 <= 25)%nat /\ List.length (centerLine 25 (-280)) = 19%nat.
Proof.
  split; [lia |].
  rewrite (proj1 (centerLine_marks 25 ltac:(lia))). reflexivity.
Defined.

(** ** Attitude indicator *)

Lemma disc_in_rects (r off px py : R) :
  0 <= r -> - r <= off <= r -> px * px + py * py <= r * r ->
  inRect px py (mkRect (- r) (- r * 2 + off) (r * 2) (r * 2))
  \/ inRect px py (mkRect (- r) off (r * 2) (r * 2)).
Proof.
  intros Hr Hoff Hp.
  assert (Hx : - r <= px <= r) by nra.
  assert (Hy : - r <= py <= r) by nra.
  unfold inRect. cbn [rectX rectY rectW rectH].
  destruct (Rle_dec py off); [left | right]; lra.
Qed.

Lemma pitchOffset_bound (r deg m : R) :
  0 <= r -> Rabs deg <= m -> - (m / 90 * r) <= deg / 90 * r <= m / 90 * r.
Proof.
  intros Hr Hd. apply Rabs_le_between in Hd. nra.
Qed.

(** X9.  For a canvas at least 4 wide and a pitch of at most 90 degrees
    either way, the sky and ground rectangles of the attitude indicator
    cover the whole clip circle: no point of the instrument is left
    unpainted, and the two meet on the horizon line. *)
Theorem horizon_covers_disc (W pitchDeg rollDeg px py : R) :
  4 <= W -> Rabs pitchDeg <= 90 ->
  let h := drawAttitudeIndicator W pitchDeg rollDeg in
  px * px + py * py <= radius h * radius h ->
  (inRect px py (skyRect h) \/ inRect px py (groundRect h))
  /\ rectY (skyRect h) + rectH (skyRect h) = pitchOffset h
  /\ rectY (groundRect h) = pitchOffset h.
Proof.
  intros HW Hp h Hdisc. unfold h, drawAttitudeIndicator in *.
  cbn [radius skyRect groundRect pitchOffset rectY rectH] in *.
  assert (Hr : 0 <= W / 2 - 2) by lra.
  pose proof (pitchOffset_bound (W / 2 - 2) pitchDeg 90 Hr Hp) as Hoff.
  split; [| split; [ring | reflexivity]].
  apply disc_in_rects; [exact Hr | lra | exact Hdisc].
Qed.

Lemma horizon_covers_disc_witness :
  4 <= 100 /\ Rabs 30 <= 90
  /\ 3 * 3 + 4 * 4
     <= radius (drawAttitudeIndicator 100 30 0)
        * radius (drawAttitudeIndicator 100 30 0)
  /\ (inRect 3 4 (skyRect (drawAttitudeIndicator 100 30 0))
      \/ inRect 3 4 (groundRect (drawAttitudeIndicator 100 30 0))).
Proof.
  assert (H1 : 4 <= 100) by lra.
  assert (H2 : Rabs 30 <= 90) by (rewrite Rabs_pos_eq; lra).
  assert (H3 : 3 * 3 + 4 * 4
               <= radius (drawAttitudeIndicator 100 30 0)
                  * radius (drawAttitudeIndicator 100 30 0)).
  { unfold drawAttitudeIndicator. cbn [radius]. lra. }
  split; [exact H1 | split; [exact H2 | split; [exact H3 |]]].
  exact (proj1 (horizon_covers_disc 100 30 0 3 4 H1 H2 H3)).
Defined.

Lemma PI_pos : 0 < Math.PI.
Proof. pose proof PI_gt_3. lra. Qed.

Lemma degrees_of_MAX_PITCH : MAX_PITCH * (180 / Math.PI) = 72.
Proof.
  unfold MAX_PITCH. pose proof PI_pos.
  replace 2.5 with (5 / 2) by lra. field. lra.
Qed.

(** X10.  After any frame the attitude indicator is drawn rotated by
    exactly minus the roll, with the horizon offset [pitch / (pi/2)] radii
    from the centre, at most 0.8 radii; so the instrument is always
    completely painted. *)
Theorem attitude_after_frame (keys : Keys) (delta W px py : R) (w : Sim) :
  0 <= delta -> 4 <= W ->
  let s := state (tick keys delta w) in
  let h := attitudeOf W s in
  rotation h = - roll s
  /\ pitchOffset h = pitch s / (Math.PI / 2) * radius h
  /\ Rabs (pitchOffset h) <= 0.8 * radius h
  /\ (px * px + py * py <= radius h * radius h ->
      inRect px py (skyRect h) \/ inRect px py (groundRect h)).
Proof.
  intros Hd HW s h.
  destruct (tick_angles keys delta w Hd) as [Hp _]. fold s in Hp.
  pose proof PI_pos as Hpi.
  assert (Hr : 0 <= W / 2 - 2) by lra.
  assert (Hdeg : Rabs (pitch s * (180 / Math.PI)) <= 72).
  { rewrite <- degrees_of_MAX_PITCH, Rabs_mult.
    rewrite (Rabs_pos_eq (180 / Math.PI)).
    - apply Rmult_le_compat_r; [| exact Hp].
      apply Rlt_le, Rdiv_lt_0_compat; lra.
    - apply Rlt_le, Rdiv_lt_0_compat; lra. }
  pose proof (pitchOffset_bound (W / 2 - 2) _ 72 Hr Hdeg) as Hoff.
  unfold h, attitudeOf, drawAttitudeIndicator.
  cbn [rotation pitchOffset radius skyRect groundRect].
  split; [field; lra |]. split; [field; lra |]. split.
  - apply Rabs_le. lra.
  - apply disc_in_rects; [exact Hr | lra].
Qed.

Lemma attitude_after_frame_witness :
  0 <= 0.05 /\ 4 <= 100
  /\ rotation (attitudeOf 100 (state (tick noKeys 0.05 sim0)))
     = - roll (state (tick noKeys 0.05 sim0)).
Proof.
  assert (H1 : 0 <= 0.05) by lra. assert (H2 : 4 <= 100) by lra.
  split; [exact H1 | split; [exact H2 |]].
  exact (proj1 (attitude_after_frame noKeys 0.05 100 0 0 sim0 H1 H2)).
Defined.

(** ** Heading *)

Lemma truncate_nonneg (a : R) :
  0 <= a -> IZR (truncate a) <= a < IZR (truncate a) + 1.
Proof.
  intros Ha. unfold truncate. destruct (Rle_dec 0 a); [| contradiction].
  destruct (base_Int_part a). lra.
Qed.

Lemma truncate_neg (a : R) : a < 0 -> a <= IZR (truncate a) < a + 1.
Proof.
  intros Ha. unfold truncate. destruct (Rle_dec 0 a); [lra |].
  rewrite opp_IZR. destruct (base_Int_part (- a)). lra.
Qed.

(** The remainder has the sign of the dividend and is smaller than the
    divisor. *)
Lemma jsRem_range (a m : R) :
  0 < m ->
  (0 <= a -> 0 <= jsRem a m < m) /\ (a < 0 -> - m < jsRem a m <= 0).
Proof.
  intros Hm. unfold jsRem.
  assert (Ha : a = m * (a / m)) by (field; lra).
  set (q := a / m) in *. split; intros H.
  - assert (Hq : 0 <= q).
    { unfold q. apply Rmult_le_pos; [lra | apply Rlt_le, Rinv_0_lt_compat, Hm]. }
    pose proof (truncate_nonneg q Hq) as Ht.
    assert (H1 : 0 <= m * (q - IZR (truncate q))) by (apply Rmult_le_pos; lra).
    assert (H2 : m * (q - IZR (truncate q)) < m * 1)
      by (apply Rmult_lt_compat_l; lra).
    lra.
  - assert (Hq : q < 0).
    { destruct (Rlt_dec q 0) as [Hlt | Hge]; [exact Hlt |].
      assert (0 <= m * q) by (apply Rmult_le_pos; lra). lra. }
    pose proof (truncate_neg q Hq) as Ht.
    assert (H1 : 0 <= m * (IZR (truncate q) - q)) by (apply Rmult_le_pos; lra).
    assert (H2 : m * (IZR (truncate q) - q) < m * 1)
      by (apply Rmult_lt_compat_l; lra).
    lra.
Qed.

(** X11.  The heading lies in [0, 360) for every yaw, and differs from
    minus the yaw in degrees by a whole number of turns. *)
Theorem heading_wraps (s : State) :
  0 <= heading s < 360
  /\ exists k : Z, heading s = (- yaw s * 180) / Math.PI + 360 * IZR k.
Proof.
  unfold heading. set (a := (- yaw s * 180) / Math.PI).
  destruct (jsRem_range a 360 ltac:(lra)) as [Hpos Hneg].
  assert (Hin : -360 < jsRem a 360 < 360).
  { destruct (Rle_dec 0 a) as [H | H].
    - apply Hpos in H. lra.
    - assert (H' : a < 0) by lra. apply Hneg in H'. lra. }
  destruct (jsRem_range (jsRem a 360 + 360) 360 ltac:(lra)) as [Hout _].
  split; [apply Hout; lra |].
  exists (1 + (- truncate (a / 360)
              + (- truncate ((jsRem a 360 + 360) / 360))))%Z.
  rewrite !plus_IZR, !opp_IZR. unfold jsRem. ring.
Qed.

(** ** Chase camera *)

Lemma half_angle (a : R) :
  sin a = 2 * sin (a / 2) * cos (a / 2)
  /\ cos a = 1 - 2 * sin (a / 2) * sin (a / 2)
  /\ sin (a / 2) * sin (a / 2) + cos (a / 2) * cos (a / 2) = 1.
Proof.
  split; [| split].
  - rewrite <- sin_2a. f_equal. lra.
  - rewrite <- cos_2a_sin. f_equal. lra.
  - pose proof (sin2_cos2 (a / 2)) as H. unfold Rsqr in H. exact H.
Qed.

(** A quaternion about the vertical axis turns a vector in the horizontal
    plane and keeps its height. *)
Lemma rotate_about_Y (v : Vector3) (a : R) :
  applyQuaternion v (setFromAxisAngle (mkVector3 0 1 0) a)
  = mkVector3 (x v * cos a + z v * sin a) (y v) (z v * cos a - x v * sin a).
Proof.
  unfold applyQuaternion, setFromAxisAngle, Math.sin, Math.cos.
  cbn [x y z _x _y _z _w].
  destruct (half_angle a) as (-> & -> & _). f_equal; ring.
Qed.

(** X12.  The camera aims for the point 18 behind the aircraft along its
    heading and 3 above it: the offset is turned by the yaw only, so its
    height stays 3 and its horizontal length 18 whatever the pitch and
    the roll. *)
Theorem chase_camera_position (s : State) :
  desiredCamPos s
  = mkVector3 (x (position s) - 18 * cos (yaw s))
              (y (position s) + 3)
              (z (position s) + 18 * sin (yaw s))
  /\ (x (desiredCamPos s) - x (position s)) * (x (desiredCamPos s) - x (position s))
     + (z (desiredCamPos s) - z (position s)) * (z (desiredCamPos s) - z (position s))
     = 18 * 18.
Proof.
  assert (E : desiredCamPos s
              = mkVector3 (x (position s) - 18 * cos (yaw s))
                          (y (position s) + 3)
                          (z (position s) + 18 * sin (yaw s))).
  { unfold desiredCamPos. rewrite rotate_about_Y.
    unfold add, cameraOffset. cbn [x y z]. f_equal; ring. }
  split; [exact E |].
  rewrite E. cbn [x z].
  pose proof (sin2_cos2 (yaw s)) as H. unfold Rsqr in H. nra.
Qed.

Lemma camera_update (keys : Keys) (delta : R) (w : Sim) :
  let dt := Math.min delta 0.05 in
  let s := state (tick keys delta w) in
  cameraCurrent (tick keys delta w)
  = lerp (cameraCurrent w) (desiredCamPos s) (1 - Math.pow CAMERA_LERP dt)
  /\ cameraTarget (tick keys delta w)
     = lerp (cameraTarget w) (add (position s) (mkVector3 0 1 0))
            (1 - Math.pow CAMERA_LERP dt).
Proof. split; reflexivity. Qed.

Lemma lerp_gap (v t : Vector3) (k : R) :
  sub (lerp v t (1 - k)) t = multiplyScalar (sub v t) k.
Proof. unfold sub, lerp, multiplyScalar. cbn [x y z]. f_equal; ring. Qed.

(** X13.  Each frame the camera closes the same fraction of its gap to
    the point it aims for: what is left of the gap is the old gap times
    [CAMERA_LERP ^ dt], a factor in (0, 1], so the camera never overshoots
    and the gap never grows; the same holds for the point it looks at. *)
Theorem camera_closes_gap (keys : Keys) (delta : R) (w : Sim) :
  0 <= delta ->
  let k := Math.pow CAMERA_LERP (Math.min delta 0.05) in
  let s := state (tick keys delta w) in
  let lookAt := add (position s) (mkVector3 0 1 0) in
  0 < k <= 1
  /\ sub (cameraCurrent (tick keys delta w)) (desiredCamPos s)
     = multiplyScalar (sub (cameraCurrent w) (desiredCamPos s)) k
  /\ sub (cameraTarget (tick keys delta w)) lookAt
     = multiplyScalar (sub (cameraTarget w) lookAt) k
  /\ length (sub (cameraCurrent (tick keys delta w)) (desiredCamPos s))
     <= length (sub (cameraCurrent w) (desiredCamPos s)).
Proof.
  intros Hd k s lookAt.
  destruct (camera_update keys delta w) as [Hc Ht]. fold s in Hc, Ht.
  fold k in Hc, Ht. fold lookAt in Ht.
  assert (Hk : 0 < k <= 1).
  { split; [apply pow_pos |].
    apply pow_le_1; [unfold CAMERA_LERP; lra | apply (min_dt delta Hd)]. }
  split; [exact Hk |].
  rewrite Hc, Ht, !lerp_gap. split; [reflexivity | split; [reflexivity |]].
  rewrite length_multiplyScalar, Rabs_pos_eq by lra.
  pose proof (length_nonneg (sub (cameraCurrent w) (desiredCamPos s))). nra.
Qed.

Lemma camera_closes_gap_witness :
  0 <= 0.05
  /\ length (sub (cameraCurrent (tick noKeys 0.05 sim0))
                 (desiredCamPos (state (tick noKeys 0.05 sim0))))
     <= length (sub (cameraCurrent sim0)
                    (desiredCamPos (state (tick noKeys 0.05 sim0)))).
Proof.
  assert (H : 0 <= 0.05) by lra.
  split; [exact H |].
  exact (proj2 (proj2 (proj2 (camera_closes_gap noKeys 0.05 sim0 H)))).
Defined.

(** ** Orientation *)

Lemma forward_formula (s : State) :
  forward s = mkVector3 (cos (yaw s) * cos (pitch s)) (sin (pitch s))
                        (- sin (yaw s) * cos (pitch s)).
Proof.
  unfold forward, qTotal, multiply, multiplyQuaternions, setFromAxisAngle,
    applyQuaternion, Math.sin, Math.cos.
  cbn [x y z _x _y _z _w].
  destruct (half_angle (yaw s)) as (-> & -> & H1).
  destruct (half_angle (pitch s)) as (-> & -> & H2).
  destruct (half_angle (roll s)) as (_ & _ & H3).
  generalize dependent (sin (yaw s / 2)). generalize dependent (cos (yaw s / 2)).
  generalize dependent (sin (pitch s / 2)).
  generalize dependent (cos (pitch s / 2)).
  generalize dependent (sin (roll s / 2)). generalize dependent (cos (roll s / 2)).
  intros c3 s3 H3 c2 s2 H2 c1 s1 H1.
  f_equal; nsatz.
Qed.

Lemma upWorld_formula (s : State) :
  upWorld s
  = mkVector3 (sin (roll s) * sin (yaw s)
               - cos (roll s) * sin (pitch s) * cos (yaw s))
              (cos (roll s) * cos (pitch s))
              (sin (roll s) * cos (yaw s)
               + cos (roll s) * sin (pitch s) * sin (yaw s)).
Proof.
  unfold upWorld, qTotal, multiply, multiplyQuaternions, setFromAxisAngle,
    applyQuaternion, Math.sin, Math.cos.
  cbn [x y z _x _y _z _w].
  destruct (half_angle (yaw s)) as (-> & -> & H1).
  destruct (half_angle (pitch s)) as (-> & -> & H2).
  destruct (half_angle (roll s)) as (-> & -> & H3).
  generalize dependent (sin (yaw s / 2)). generalize dependent (cos (yaw s / 2)).
  generalize dependent (sin (pitch s / 2)).
  generalize dependent (cos (pitch s / 2)).
  generalize dependent (sin (roll s / 2)). generalize dependent (cos (roll s / 2)).
  intros c3 s3 H3 c2 s2 H2 c1 s1 H1.
  f_equal; nsatz.
Qed.

Lemma sin2_cos2_mult (a : R) : sin a * sin a + cos a * cos a = 1.
Proof. pose proof (sin2_cos2 a) as H. unfold Rsqr in H. exact H. Qed.

(** X14.  The nose direction is given by the yaw and the pitch alone,
    [(cos yaw cos pitch, sin pitch, - sin yaw cos pitch)]: rolling does not
    turn the thrust, and the nose rises with the sine of the pitch.  The
    vertical share of the up direction is [cos roll * cos pitch]. *)
Theorem nose_direction (s : State) :
  forward s = mkVector3 (cos (yaw s) * cos (pitch s)) (sin (pitch s))
                        (- sin (yaw s) * cos (pitch s))
  /\ forward (set_roll 0 s) = forward s
  /\ y (upWorld s) = cos (roll s) * cos (pitch s).
Proof.
  split; [apply forward_formula | split].
  - rewrite !forward_formula. reflexivity.
  - rewrite upWorld_formula. reflexivity.
Qed.

Lemma orthonormal_frame (s : State) :
  dot (forward s) (forward s) = 1
  /\ dot (upWorld s) (upWorld s) = 1
  /\ dot (forward s) (upWorld s) = 0.
Proof.
  rewrite forward_formula, upWorld_formula. unfold dot. cbn [x y z].
  pose proof (sin2_cos2_mult (yaw s)) as H1.
  pose proof (sin2_cos2_mult (pitch s)) as H2.
  pose proof (sin2_cos2_mult (roll s)) as H3.
  generalize dependent (sin (yaw s)). generalize dependent (cos (yaw s)).
  generalize dependent (sin (pitch s)). generalize dependent (cos (pitch s)).
  generalize dependent (sin (roll s)). generalize dependent (cos (roll s)).
  intros c3 s3 H3 c2 s2 H2 c1 s1 H1.
  repeat split; nsatz.
Qed.

Lemma length_of_unit (v : Vector3) : dot v v = 1 -> length v = 1.
Proof.
  intros H. unfold length, Math.sqrt. unfold dot in H. rewrite H.
  apply sqrt_1.
Qed.

(** X15.  In every attitude the nose and up directions are unit vectors
    at right angles to each other. *)
Theorem orientation_orthonormal (s : State) :
  length (forward s) = 1 /\ length (upWorld s) = 1
  /\ dot (forward s) (upWorld s) = 0.
Proof.
  destruct (orthonormal_frame s) as (Hf & Hu & Hfu).
  split; [apply length_of_unit, Hf | split; [apply length_of_unit, Hu | exact Hfu]].
Qed.

(** X16.  Thrust and lift together: the vertical component is
    [throttle * THRUST_ACCEL * sin pitch + liftAcc * cos roll * cos pitch]
    (banking or pitching takes away from the lift that holds the aircraft
    up), and since the two directions are at right angles the squared
    magnitude is the sum of the squares of the thrust and of the lift. *)
Theorem thrust_and_lift (s : State) :
  y (thrustAndLift s)
  = throttle s * THRUST_ACCEL * sin (pitch s)
    + liftAcc s * cos (roll s) * cos (pitch s)
  /\ dot (thrustAndLift s) (thrustAndLift s)
     = (throttle s * THRUST_ACCEL) * (throttle s * THRUST_ACCEL)
       + liftAcc s * liftAcc s.
Proof.
  destruct (orthonormal_frame s) as (Hf & Hu & Hfu).
  split.
  - unfold thrustAndLift, addScaledVector. cbn [x y z].
    rewrite forward_formula, upWorld_formula. cbn [y]. ring.
  - unfold thrustAndLift, addScaledVector, dot in *. cbn [x y z] in *.
    set (t := throttle s * THRUST_ACCEL). set (l := liftAcc s).
    generalize dependent (forward s). generalize dependent (upWorld s).
    intros u Hu f Hf Hfu.
    destruct u as [ux uy uz], f as [fx fy fz]. cbn [x y z] in *.
    nsatz.
Qed.

(** ** Throttle *)

Lemma throttle_applyControls (keys : Keys) (dt : R) (s : State) :
  0 <= dt -> 0 <= throttle s <= 1 ->
  0 <= throttle (applyControls keys dt s) <= 1.
Proof.
  intros Hdt Hs. unfold applyControls. cbv zeta.
  set (s6 := when (keys "KeyE"%string) _ _).
  assert (H6 : throttle s6 = throttle s).
  { unfold s6. rewrite !(when_frame throttle) by reflexivity. reflexivity. }
  clearbody s6.
  destruct (keys "Space"%string).
  { rewrite when_true.
    match goal with
    | |- context [throttle (resetAirplane ?t)] =>
        change (throttle (resetAirplane t)) with 0.3
    end.
    lra. }
  rewrite when_false.
  destruct (keys "ArrowDown"%string), (keys "ArrowUp"%string);
    unfold when; proj; rewrite ?H6;
    unfold Math.max, Math.min, Rmax, Rmin;
    repeat match goal with
           | |- context [Rle_dec ?a ?b] => destruct (Rle_dec a b)
           end; lra.
Qed.

Lemma throttle_controls (keys : Keys) (dt : R) (s : State) :
  throttle (controls keys dt s) = throttle (applyControls keys dt s).
Proof.
  unfold controls, autoLevel, yawCoupling, clampAngles. cbv zeta.
  rewrite !(when_frame throttle) by reflexivity. reflexivity.
Qed.

Lemma atGroundTest_throttle (dt : R) (s : State) :
  throttle (atGroundTest dt s) = throttle s
  /\ speed (atGroundTest dt s) = length (velocity s).
Proof.
  unfold atGroundTest, speedCap.
  destruct (Rgtb _ MAX_SPEED); split; reflexivity.
Qed.

Lemma physics_throttle (dt : R) (s : State) :
  throttle (physics dt s) = throttle s
  /\ speed (physics dt s) = length (velocity s).
Proof.
  rewrite physics_unfold. unfold integratePosition.
  rewrite groundConstraint_eq.
  destruct (atGroundTest_throttle dt s) as [Ht Hs].
  destruct (Rleb _ groundY); proj; rewrite Ht, Hs; split; reflexivity.
Qed.

Lemma tick_throttle (keys : Keys) (delta : R) (w : Sim) :
  0 <= delta -> 0 <= throttle (state w) <= 1 ->
  0 <= throttle (state (tick keys delta w)) <= 1.
Proof.
  intros Hd Hw. unfold tick. rewrite state_update.
  destruct (physics_throttle (Math.min delta 0.05)
              (controls keys (Math.min delta 0.05) (state w))) as [-> _].
  rewrite throttle_controls. apply throttle_applyControls; [| exact Hw].
  apply (min_dt delta Hd).
Qed.

(** X17.  Along any run of frames from the initial state the throttle
    stays within [0, 1]. *)
Theorem throttle_in_range (frames : list (Keys * R)) :
  nonneg_deltas frames ->
  0 <= throttle (state (run frames sim0)) <= 1.
Proof.
  intros Hf.
  assert (H0 : 0 <= throttle (state sim0) <= 1).
  { unfold sim0, state0. proj. lra. }
  revert H0. generalize sim0.
  induction Hf as [| [keys delta] rest Hd _ IH]; intros w Hw; cbn [run].
  - exact Hw.
  - apply IH. apply tick_throttle; assumption.
Qed.

Lemma throttle_in_range_witness :
  nonneg_deltas [(held "ArrowUp", 0.05); (held "ArrowDown", 0.01)]
  /\ 0 <= throttle (state (run [(held "ArrowUp", 0.05);
                                (held "ArrowDown", 0.01)] sim0)) <= 1.
Proof.
  assert (H : nonneg_deltas [(held "ArrowUp", 0.05); (held "ArrowDown", 0.01)]).
  { repeat constructor; cbn [snd]; lra. }
  split; [exact H | apply (throttle_in_range _ H)].
Defined.

(** ** Speed, g-force and altitude along a run *)

Lemma tick_speed_le (keys : Keys) (delta : R) (w : Sim) :
  0 <= delta -> length (velocity (state (tick keys delta w))) <= MAX_SPEED.
Proof.
  intros Hd. rewrite tick_velocity. unfold atGroundTest.
  eapply Rle_trans; [| apply speedCap_bound].
  apply groundConstraint_slows. apply (min_dt delta Hd).
Qed.

Lemma velocity_controls (keys : Keys) (dt : R) (s : State) :
  length (velocity (controls keys dt s)) <= length (velocity s).
Proof.
  destruct (keys "Space"%string) eqn:Hk.
  - rewrite (controls_reset _ _ _ Hk). unfold defaults. proj.
    rewrite length_zero. apply length_nonneg.
  - destruct (controls_frame keys dt s Hk) as (_ & -> & _). apply Rle_refl.
Qed.

(** What holds of the flight state after every frame. *)
Lemma envelope_tick (keys : Keys) (delta : R) (w : Sim) :
  0 <= delta -> length (velocity (state w)) <= MAX_SPEED ->
  length (velocity (state (tick keys delta w))) <= MAX_SPEED
  /\ 0 <= speed (state (tick keys delta w)) <= MAX_SPEED
  /\ 1 <= gForce (state (tick keys delta w)) <= 5.69.
Proof.
  intros Hd Hw. split; [apply tick_speed_le; exact Hd |].
  unfold tick. rewrite state_update.
  set (dt := Math.min delta 0.05). set (s1 := controls keys dt (state w)).
  destruct (physics_throttle dt s1) as [_ ->].
  assert (Hs : 0 <= length (velocity s1) <= MAX_SPEED).
  { split; [apply length_nonneg |].
    eapply Rle_trans; [apply velocity_controls | exact Hw]. }
  split; [exact Hs |].
  rewrite gForce_physics. unfold liftAcc, measureSpeed, Math.abs. proj.
  unfold MAX_SPEED in Hs.
  destruct (isStalled _).
  - unfold Rdiv. rewrite Rmult_0_l, Rabs_R0. lra.
  - set (v := length (velocity s1)) in *.
    assert (Hl : 0 <= v * v * LIFT_FACTOR / GRAVITY <= 4.69).
    { unfold LIFT_FACTOR, GRAVITY.
      assert (Hvv : 0 <= v * v <= 12100) by nra.
      lra. }
    rewrite Rabs_pos_eq by lra. lra.
Qed.

(** X18.  Along any run of frames from the initial state the velocity is
    never longer than [MAX_SPEED], the speed shown lies in [0, 110] (at
    most 396 km/h) and the g-force in [1, 5.69]. *)
Theorem flight_envelope (frames : list (Keys * R)) :
  nonneg_deltas frames ->
  let s := state (run frames sim0) in
  length (velocity s) <= MAX_SPEED
  /\ 0 <= speed s <= MAX_SPEED
  /\ speed s * 3.6 <= 396
  /\ 1 <= gForce s <= 5.69.
Proof.
  intros Hf.
  assert (H0 : length (velocity (state sim0)) <= MAX_SPEED
               /\ 0 <= speed (state sim0) <= MAX_SPEED
               /\ 1 <= gForce (state sim0) <= 5.69).
  { unfold sim0, state0, MAX_SPEED. proj. rewrite length_zero. lra. }
  assert (H : length (velocity (state (run frames sim0))) <= MAX_SPEED
              /\ 0 <= speed (state (run frames sim0)) <= MAX_SPEED
              /\ 1 <= gForce (state (run frames sim0)) <= 5.69).
  { revert H0. generalize sim0.
    induction Hf as [| [keys delta] rest Hd _ IH]; intros w Hw; cbn [run].
    - exact Hw.
    - apply IH. apply envelope_tick; [exact Hd | apply Hw]. }
  intros s. unfold s. unfold MAX_SPEED in *. repeat split; lra.
Qed.

Lemma flight_envelope_witness :
  nonneg_deltas [(held "ArrowUp", 0.05)]
  /\ 1 <= gForce (state (run [(held "ArrowUp", 0.05)] sim0)) <= 5.69.
Proof.
  assert (H : nonneg_deltas [(held "ArrowUp", 0.05)]).
  { repeat constructor; cbn [snd]; lra. }
  split; [exact H |].
  exact (proj2 (proj2 (proj2 (flight_envelope _ H)))).
Defined.

Lemma abs_y_le_length (v : Vector3) : Rabs (y v) <= length v.
Proof.
  unfold length, Math.sqrt. rewrite <- sqrt_Rsqr_abs.
  apply sqrt_le_1_alt. unfold Rsqr. nra.
Qed.

(** The height at which a frame ends. *)
Lemma tick_y (keys : Keys) (delta : R) (w : Sim) :
  let dt := Math.min delta 0.05 in
  let g := atGroundTest dt (controls keys dt (state w)) in
  y (position (state (tick keys delta w)))
  = if Rleb (y (position g)) groundY
    then groundY + (if Rltb (y (velocity g)) 0 then 0 else y (velocity g)) * dt
    else y (position g) + y (velocity g) * dt.
Proof.
  intros dt g. rewrite tick_unfold. fold dt. fold g.
  unfold integratePosition, addScaledVector. rewrite groundConstraint_eq.
  destruct (Rleb (y (position g)) groundY); proj; reflexivity.
Qed.

Lemma tick_y_low (keys : Keys) (delta : R) (w : Sim) :
  0 <= delta -> groundY - 5.5 <= y (position (state (tick keys delta w))).
Proof.
  intros Hd. rewrite tick_y.
  pose proof (min_dt delta Hd) as Hdt.
  set (dt := Math.min delta 0.05) in *.
  set (g := atGroundTest dt (controls keys dt (state w))).
  destruct (Rleb (y (position g)) groundY) eqn:Hy.
  - destruct (Rltb (y (velocity g)) 0) eqn:Hv; [lra |].
    apply Rltb_false in Hv. nra.
  - apply Rleb_false in Hy.
    assert (Hv : Rabs (y (velocity g)) <= MAX_SPEED).
    { eapply Rle_trans; [apply abs_y_le_length |].
      unfold g, atGroundTest. apply speedCap_bound. }
    apply Rabs_le_between in Hv. unfold MAX_SPEED in Hv. nra.
Qed.

(** X19.  A frame never ends more than 5.5 below the ground clearance,
    and a dip below it lasts one frame: if a frame ends below [groundY],
    the next frame ends at or above it. *)
Theorem dip_below_ground (keys1 keys2 : Keys) (delta1 delta2 : R) (w : Sim) :
  0 <= delta1 -> 0 <= delta2 ->
  let w1 := tick keys1 delta1 w in
  groundY - 5.5 <= y (position (state w1))
  /\ (y (position (state w1)) < groundY ->
      groundY <= y (position (state (tick keys2 delta2 w1)))).
Proof.
  intros H1 H2 w1. split; [apply tick_y_low; exact H1 |].
  intros Hlow.
  pose proof (min_dt delta2 H2) as Hdt.
  destruct (keys2 "Space"%string) eqn:Hk.
  - rewrite (reset_frame _ _ _ Hk H2). unfold afterReset, groundY. proj.
    set (dt := Math.min delta2 0.05) in *. nra.
  - rewrite tick_y.
    set (dt := Math.min delta2 0.05) in *.
    set (g := atGroundTest dt (controls keys2 dt (state w1))).
    assert (Hg : y (position g) = y (position (state w1))).
    { unfold g. destruct (atGroundTest_frame dt (controls keys2 dt (state w1)))
        as (-> & _).
      destruct (controls_frame keys2 dt (state w1) Hk) as (-> & _).
      reflexivity. }
    assert (Hy : Rleb (y (position g)) groundY = true).
    { apply Rleb_true. lra. }
    rewrite Hy.
    destruct (Rltb (y (velocity g)) 0) eqn:Hv; [lra |].
    apply Rltb_false in Hv. nra.
Qed.

Lemma dip_below_ground_witness :
  0 <= 0.05 /\ 0 <= 0.05
  /\ y (position (state (tick noKeys 0.05 (run (fallFrames 8) sim0)))) < groundY
  /\ groundY
     <= y (position (state (tick noKeys 0.05
                              (tick noKeys 0.05 (run (fallFrames 8) sim0))))).
Proof.
  assert (H : 0 <= 0.05) by lra.
  assert (Hlow : y (position (state (tick noKeys 0.05 (run (fallFrames 8) sim0))))
                 < groundY).
  { pose proof (falling_tick 8 (run (fallFrames 8) sim0)
                  ltac:(lra) falling_after_8) as Hf.
    destruct Hf as (_ & _ & _ & _ & _ & _ & _ & _ & Hpos).
    unfold groundY. lra. }
  destruct (dip_below_ground noKeys noKeys 0.05 0.05 (run (fallFrames 8) sim0)
              H H) as [_ Hnext].
  split; [exact H | split; [exact H | split; [exact Hlow | exact (Hnext Hlow)]]].
Defined.

(** ** Forces along the nose, lift against gravity, and the speed shown *)

Lemma dot_addScaledVector (a b c : Vector3) (k : R) :
  dot (addScaledVector a b k) c = dot a c + k * dot b c.
Proof. unfold dot, addScaledVector. cbn [x y z]. ring. Qed.

Lemma dragFactor_value (s : State) :
  0 <= speed s ->
  dragFactor s * speed s
  = - (if Rgtb (speed s) 0.01 then speed s * speed s * DRAG_FACTOR else 0).
Proof.
  intros Hs. unfold dragFactor, dragScale.
  destruct (Rgtb (speed s) 0.01) eqn:Hg.
  - apply Rltb_true in Hg. field. lra.
  - ring.
Qed.

(** X20.  For an aircraft flying along its nose at speed [v], the
    acceleration along the nose is thrust minus drag minus the share of
    gravity: [throttle * THRUST_ACCEL - v^2 * DRAG_FACTOR - GRAVITY * sin
    pitch] (no drag term up to 0.01); the lift does not act along the
    nose.  At full throttle and zero pitch it is at least 0.22 at every
    speed up to [MAX_SPEED], so it is the speed cap, not the drag, that
    ends the acceleration. *)
Theorem acceleration_along_nose (s : State) (v : R) :
  0 <= v -> velocity s = multiplyScalar (forward s) v ->
  let p := measureSpeed s in
  speed p = v
  /\ dot (acceleration p) (forward s)
     = throttle s * THRUST_ACCEL
       - (if Rgtb v 0.01 then v * v * DRAG_FACTOR else 0)
       - GRAVITY * sin (pitch s)
  /\ (throttle s = 1 -> pitch s = 0 -> v <= MAX_SPEED ->
      0.22 <= dot (acceleration p) (forward s)).
Proof.
  intros Hv Hvel p.
  destruct (orthonormal_frame s) as (Hf & Hu & Hfu).
  assert (Hsp : speed p = v).
  { unfold p, measureSpeed. proj. rewrite Hvel, length_multiplyScalar.
    rewrite (length_of_unit _ Hf), Rabs_pos_eq by assumption. ring. }
  assert (Hd : dragFactor p * v
               = - (if Rgtb v 0.01 then v * v * DRAG_FACTOR else 0)).
  { rewrite <- Hsp at 1. rewrite dragFactor_value by (rewrite Hsp; exact Hv).
    rewrite Hsp. reflexivity. }
  assert (Hacc : dot (acceleration p) (forward s)
                 = throttle s * THRUST_ACCEL + dragFactor p * v
                   - GRAVITY * sin (pitch s)).
  { unfold acceleration. fold (dragFactor p).
    assert (Hy : y (forward s) = sin (pitch s)).
    { rewrite forward_formula. reflexivity. }
    assert (Hva : forall acc : Vector3,
               dot (set_y acc (y acc - GRAVITY)) (forward s)
               = dot acc (forward s) - GRAVITY * sin (pitch s)).
    { intros acc. unfold dot, set_y. cbn [x y z]. rewrite Hy. ring. }
    assert (Htl : dot (thrustAndLift p) (forward s) = throttle s * THRUST_ACCEL).
    { unfold thrustAndLift. rewrite !dot_addScaledVector.
      change (forward p) with (forward s). change (upWorld p) with (upWorld s).
      change (throttle p) with (throttle s).
      assert (Hfu' : dot (upWorld s) (forward s) = 0).
      { unfold dot in *. lra. }
      rewrite Hf, Hfu'. unfold dot. cbn [x y z]. ring. }
    unfold dragFactor. destruct (dragScale p) as [k |].
    - rewrite Hva, dot_addScaledVector, Htl.
      change (velocity p) with (velocity s). rewrite Hvel.
      unfold dot in *. unfold multiplyScalar. cbn [x y z].
      replace (x (forward s) * v * x (forward s) + y (forward s) * v * y (forward s)
               + z (forward s) * v * z (forward s))
        with (v * (x (forward s) * x (forward s) + y (forward s) * y (forward s)
                   + z (forward s) * z (forward s))) by ring.
      rewrite Hf. ring.
    - rewrite Hva, Htl. ring. }
  split; [exact Hsp | split].
  - rewrite Hacc, Hd. ring.
  - intros Ht Hp Hmax. rewrite Hacc, Hd, Ht, Hp, sin_0.
    unfold THRUST_ACCEL, DRAG_FACTOR, GRAVITY, MAX_SPEED in *.
    destruct (Rgtb v 0.01); nra.
Qed.

Lemma acceleration_along_nose_witness :
  0 <= 100
  /\ velocity (set_throttle 1 (set_velocity (mkVector3 100 0 0) state0))
     = multiplyScalar
         (forward (set_throttle 1 (set_velocity (mkVector3 100 0 0) state0)))
         100
  /\ 0.22 <= dot (acceleration (measureSpeed
                    (set_throttle 1 (set_velocity (mkVector3 100 0 0) state0))))
                 (forward (set_throttle 1
                    (set_velocity (mkVector3 100 0 0) state0))).
Proof.
  set (s := set_throttle 1 (set_velocity (mkVector3 100 0 0) state0)).
  assert (H0 : 0 <= 100) by lra.
  assert (Hvel : velocity s = multiplyScalar (forward s) 100).
  { rewrite (forward_level s eq_refl eq_refl eq_refl).
    unfold s, multiplyScalar. proj. f_equal; ring. }
  destruct (acceleration_along_nose s 100 H0 Hvel) as (_ & _ & Hfull).
  split; [exact H0 | split; [exact Hvel |]].
  apply Hfull; [reflexivity | reflexivity | unfold MAX_SPEED; lra].
Defined.

(** X21.  When the aircraft is not stalled the lift is below gravity up to
    50.8 m/s and above it from 50.81 m/s on (it balances gravity at about
    51 m/s); when it is stalled there is no lift at all. *)
Theorem lift_against_gravity (s : State) :
  0 <= speed s ->
  (isStalled s = true -> liftAcc s = 0)
  /\ (isStalled s = false ->
      (speed s <= 50.8 -> liftAcc s < GRAVITY)
      /\ (50.81 <= speed s -> GRAVITY < liftAcc s)).
Proof.
  intros Hs. unfold liftAcc. split; intros Hst; rewrite Hst; [reflexivity |].
  unfold LIFT_FACTOR, GRAVITY. split; intros H; nra.
Qed.

Lemma lift_against_gravity_witness :
  0 <= speed (set_speed 60 state0)
  /\ isStalled (set_speed 60 state0) = false
  /\ 50.81 <= speed (set_speed 60 state0)
  /\ GRAVITY < liftAcc (set_speed 60 state0).
Proof.
  assert (H0 : 0 <= speed (set_speed 60 state0)) by (proj; lra).
  assert (Hst : isStalled (set_speed 60 state0) = false).
  { unfold isStalled. proj. apply andb_false_r. }
  assert (Hv : 50.81 <= speed (set_speed 60 state0)) by (proj; lra).
  destruct (lift_against_gravity (set_speed 60 state0) H0) as [_ Hn].
  split; [exact H0 | split; [exact Hst | split; [exact Hv |]]].
  exact (proj2 (Hn Hst) Hv).
Defined.

(** X22.  The speed a frame stores (and the HUD shows) is the length of
    the velocity the frame started with, 0 in a frame with the reset key
    held: it is measured before the velocity is integrated, so it trails
    the velocity by one frame. *)
Theorem speed_is_measured_first (keys : Keys) (delta : R) (w : Sim) :
  speed (state (tick keys delta w))
  = (if keys "Space"%string then 0 else length (velocity (state w)))
  /\ 0 <= speed (state (tick keys delta w)).
Proof.
  unfold tick. rewrite state_update.
  destruct (physics_throttle (Math.min delta 0.05)
              (controls keys (Math.min delta 0.05) (state w))) as [_ ->].
  split; [| apply length_nonneg].
  destruct (keys "Space"%string) eqn:Hk.
  - rewrite (controls_reset _ _ _ Hk). unfold defaults. proj. apply length_zero.
  - destruct (controls_frame keys (Math.min delta 0.05) (state w) Hk)
      as (_ & -> & _).
    reflexivity.
Qed.

(** ** Turning by banking *)

Lemma applyControls_hands_off (keys : Keys) (dt : R) (s : State) :
  keys "KeyA"%string = false -> keys "KeyD"%string = false ->
  keys "KeyQ"%string = false -> keys "KeyE"%string = false ->
  keys "Space"%string = false ->
  yaw (applyControls keys dt s) = yaw s
  /\ roll (applyControls keys dt s) = roll s.
Proof.
  intros HA HD HQ HE HS. unfold applyControls.
  rewrite HA, HD, HQ, HE, HS. cbv zeta. rewrite !when_false.
  split.
  - rewrite !(when_frame yaw) by reflexivity. reflexivity.
  - rewrite !(when_frame roll) by reflexivity. reflexivity.
Qed.

Lemma yaw_controls (keys : Keys) (dt : R) (s : State) :
  yaw (controls keys dt s)
  = yaw (applyControls keys dt s)
    + Math.max (- MAX_ROLL) (Math.min MAX_ROLL (roll (applyControls keys dt s)))
      * 0.35 * dt.
Proof.
  unfold controls, autoLevel. cbv zeta.
  rewrite !(when_frame yaw) by reflexivity.
  set (a := applyControls keys dt s). reflexivity.
Qed.

Lemma physics_yaw (dt : R) (s : State) : yaw (physics dt s) = yaw s.
Proof.
  rewrite physics_unfold. unfold integratePosition.
  rewrite groundConstraint_eq.
  assert (H : yaw (atGroundTest dt s) = yaw s).
  { unfold atGroundTest, speedCap. destruct (Rgtb _ MAX_SPEED); reflexivity. }
  destruct (Rleb _ groundY); proj; exact H.
Qed.

(** X23.  With neither rudder nor roll key held (and no reset), a frame
    turns the aircraft by [roll * 0.35 * dt]: the yaw changes only through
    the bank, in its direction, and an aircraft with level wings holds its
    yaw. *)
Theorem bank_turns (keys : Keys) (delta : R) (w : Sim) :
  keys "KeyA"%string = false -> keys "KeyD"%string = false ->
  keys "KeyQ"%string = false -> keys "KeyE"%string = false ->
  keys "Space"%string = false ->
  Rabs (roll (state w)) <= MAX_ROLL ->
  yaw (state (tick keys delta w))
  = yaw (state w) + roll (state w) * 0.35 * Math.min delta 0.05
  /\ (roll (state w) = 0 -> yaw (state (tick keys delta w)) = yaw (state w)).
Proof.
  intros HA HD HQ HE HS Hr.
  assert (E : yaw (state (tick keys delta w))
              = yaw (state w) + roll (state w) * 0.35 * Math.min delta 0.05).
  { unfold tick. rewrite state_update, physics_yaw, yaw_controls.
    destruct (applyControls_hands_off keys (Math.min delta 0.05) (state w)
                HA HD HQ HE HS) as [-> ->].
    rewrite (clamp_id _ _ Hr). reflexivity. }
  split; [exact E |].
  intros H0. rewrite E, H0. ring.
Qed.

Lemma bank_turns_witness :
  noKeys "KeyA"%string = false /\ noKeys "KeyD"%string = false
  /\ noKeys "KeyQ"%string = false /\ noKeys "KeyE"%string = false
  /\ noKeys "Space"%string = false
  /\ Rabs (roll (state simRolled)) <= MAX_ROLL
  /\ yaw (state (tick noKeys 0.05 simRolled))
     = yaw (state simRolled) + roll (state simRolled) * 0.35 * Math.min 0.05 0.05.
Proof.
  assert (Hr : Rabs (roll (state simRolled)) <= MAX_ROLL).
  { change (roll (state simRolled)) with 0.5. apply half_within_MAX_ROLL. }
  repeat (split; [reflexivity |]).
  split; [exact Hr |].
  exact (proj1 (bank_turns noKeys 0.05 simRolled eq_refl eq_refl eq_refl
                  eq_refl eq_refl Hr)).
Defined.

(** ** C7: a frame whose time step is not positive *)

Lemma getDelta_nonneg (now : R) (c : Clock) :
  (running c = true -> oldTime c <= now) -> 0 <= fst (getDelta now c).
Proof.
  intros H. unfold getDelta. destruct (running c); cbn [fst]; [| lra].
  specialize (H eq_refl). lra.
Qed.

Lemma nonpositive_dt_is_zero (delta : R) :
  0 <= delta -> Math.min delta 0.05 <= 0 -> delta = 0.
Proof.
  intros H0 H. unfold Math.min, Rmin in H.
  destruct (Rle_dec delta 0.05); lra.
Qed.

Lemma pow_at_zero (b : R) : 0 < b -> Math.pow b (0 * 60) = 1.
Proof.
  intros Hb. replace (0 * 60) with 0 by ring.
  unfold Math.pow. apply Rpower_O. exact Hb.
Qed.

Lemma lerp_0 (v t : Vector3) : lerp v t 0 = v.
Proof. destruct v. unfold lerp. cbn [x y z]. f_equal; ring. Qed.

(** The keys of a frame with a zero time step move no angle and, within
    [0, 1], no throttle. *)
Lemma applyControls_zero (keys : Keys) (s : State) :
  keys "Space"%string = false ->
  pitch (applyControls keys 0 s) = pitch s
  /\ roll (applyControls keys 0 s) = roll s
  /\ yaw (applyControls keys 0 s) = yaw s
  /\ (0 <= throttle s <= 1 -> throttle (applyControls keys 0 s) = throttle s).
Proof.
  intros HS. unfold applyControls. rewrite HS. cbv zeta. rewrite when_false.
  split; [| split; [| split]].
  - rewrite !(when_frame pitch) by (intros t; proj; ring). reflexivity.
  - rewrite !(when_frame roll) by (intros t; proj; ring). reflexivity.
  - rewrite !(when_frame yaw) by (intros t; proj; ring). reflexivity.
  - intros Ht.
    set (s6 := when (keys "KeyE"%string) _ _).
    assert (H6 : throttle s6 = throttle s).
    { unfold s6. rewrite !(when_frame throttle) by reflexivity. reflexivity. }
    clearbody s6.
    destruct (keys "ArrowDown"%string), (keys "ArrowUp"%string);
      unfold when; proj; rewrite ?H6;
      unfold Math.max, Math.min, Rmax, Rmin;
      repeat match goal with
             | |- context [Rle_dec ?a ?b] => destruct (Rle_dec a b)
             | H : context [Rle_dec ?a ?b] |- _ => destruct (Rle_dec a b)
             end; lra.
Qed.

Lemma controls_zero (keys : Keys) (s : State) :
  let b := if keys "Space"%string then resetAirplane s else s in
  position (controls keys 0 s) = position b
  /\ velocity (controls keys 0 s) = velocity b
  /\ pitch (controls keys 0 s) = clampTo MAX_PITCH (pitch b)
  /\ roll (controls keys 0 s) = clampTo MAX_ROLL (roll b)
  /\ yaw (controls keys 0 s) = yaw b
  /\ (0 <= throttle b <= 1 -> throttle (controls keys 0 s) = throttle b).
Proof.
  destruct (keys "Space"%string) eqn:HS; cbv zeta.
  - rewrite (controls_reset _ _ _ HS).
    change (resetAirplane s) with (defaults (gForce s)).
    unfold defaults, clampTo. proj.
    rewrite !clamp_id
      by (rewrite Rabs_R0; pose proof MAX_PITCH_pos; pose proof MAX_ROLL_pos; lra).
    repeat split; reflexivity.
  - destruct (controls_frame keys 0 s HS) as (Hp & Hv & _).
    destruct (applyControls_zero keys s HS) as (Hpi & Hro & Hya & Hth).
    split; [exact Hp | split; [exact Hv |]].
    rewrite throttle_controls.
    unfold controls, autoLevel. cbv zeta.
    set (a := applyControls keys 0 s) in *.
    set (Y := yawCoupling 0 (clampAngles a)).
    assert (HY : pitch Y = clampTo MAX_PITCH (pitch a)
                 /\ roll Y = clampTo MAX_ROLL (roll a)
                 /\ yaw Y = yaw a).
    { unfold Y, yawCoupling, clampAngles, clampTo. proj.
      repeat split; try reflexivity. ring. }
    destruct HY as (HYp & HYr & HYy). clearbody Y. clearbody a.
    assert (Hk1 : Math.pow ROLL_DAMPING (0 * 60) = 1)
      by (apply pow_at_zero; unfold ROLL_DAMPING; lra).
    assert (Hk2 : Math.pow PITCH_DAMPING (0 * 60) = 1)
      by (apply pow_at_zero; unfold PITCH_DAMPING; lra).
    destruct (negb (keys "KeyA"%string) && negb (keys "KeyD"%string));
      destruct (negb (keys "KeyW"%string) && negb (keys "KeyS"%string));
      unfold when; proj; rewrite ?Hk1, ?Hk2, ?HYp, ?HYr, ?HYy, Hpi, Hro, Hya;
      (split; [ring | split; [ring | split; [reflexivity | exact Hth]]]).
Qed.

Lemma speedCap_velocity (s : State) :
  velocity (speedCap s) = capSpeed (velocity s).
Proof.
  unfold speedCap, capSpeed.
  destruct (Rgtb (length (velocity s)) MAX_SPEED); reflexivity.
Qed.

Lemma physics_zero (s : State) :
  position (physics 0 s) = snapToGround (position s)
  /\ velocity (physics 0 s) = stopSinking (position s) (capSpeed (velocity s))
  /\ pitch (physics 0 s) = pitch s
  /\ roll (physics 0 s) = roll s.
Proof.
  assert (Hk : Math.pow GROUND_ANGLE_DAMPING (0 * 60) = 1)
    by (apply pow_at_zero; unfold GROUND_ANGLE_DAMPING; lra).
  assert (Hf : Math.pow GROUND_FRICTION (0 * 60) = 1)
    by (apply pow_at_zero; unfold GROUND_FRICTION; lra).
  destruct (physics_angles 0 s) as [Hp Hr].
  split; [| split; [| split]].
  - rewrite physics_unfold. proj. rewrite integratePosition_0.
    rewrite groundConstraint_eq.
    destruct (atGroundTest_frame 0 s) as (Hpos & _). rewrite Hpos.
    unfold snapToGround.
    destruct (Rleb (y (position s)) groundY); proj; [reflexivity | exact Hpos].
  - rewrite physics_unfold. unfold integratePosition. proj.
    rewrite groundConstraint_eq, Hf.
    destruct (atGroundTest_frame 0 s) as (Hpos & _). rewrite Hpos.
    assert (Hv : velocity (atGroundTest 0 s) = capSpeed (velocity s)).
    { unfold atGroundTest.
      rewrite speedCap_velocity, integrateVelocity_0. reflexivity. }
    unfold stopSinking.
    destruct (Rleb (y (position s)) groundY); proj; [| exact Hv].
    rewrite Hv. destruct (capSpeed (velocity s)) as [vx vy vz]. proj.
    destruct (Rltb vy 0); f_equal; ring.
  - rewrite Hp, Hk. destruct (Rleb _ groundY); ring.
  - rewrite Hr, Hk. destruct (Rleb _ groundY); ring.
Qed.

(** A frame whose clock delta is 0. *)
Lemma zero_frame (keys : Keys) (w : Sim) :
  let b := if keys "Space"%string then resetAirplane (state w) else state w in
  let s' := state (tick keys 0 w) in
  position s' = snapToGround (position b)
  /\ velocity s' = stopSinking (position b) (capSpeed (velocity b))
  /\ pitch s' = clampTo MAX_PITCH (pitch b)
  /\ roll s' = clampTo MAX_ROLL (roll b)
  /\ yaw s' = yaw b
  /\ (0 <= throttle b <= 1 -> throttle s' = throttle b)
  /\ cameraCurrent (tick keys 0 w) = cameraCurrent w
  /\ cameraTarget (tick keys 0 w) = cameraTarget w
  /\ speed s' = length (velocity b).
Proof.
  intros b s'.
  assert (Hdt : Math.min 0 0.05 = 0) by (apply min_dt_small; lra).
  destruct (camera_update keys 0 w) as [Hc Ht]. rewrite Hdt in Hc, Ht.
  assert (Hl : 1 - Math.pow CAMERA_LERP 0 = 0).
  { unfold Math.pow. rewrite Rpower_O by (unfold CAMERA_LERP; lra). ring. }
  rewrite Hl, lerp_0 in Hc, Ht.
  unfold s', tick. rewrite state_update, Hdt.
  destruct (controls_zero keys (state w)) as (Hp & Hv & Hpi & Hro & Hya & Hth).
  fold b in Hp, Hv, Hpi, Hro, Hya, Hth.
  destruct (physics_zero (controls keys 0 (state w))) as (Pp & Pv & Ppi & Pro).
  destruct (physics_throttle 0 (controls keys 0 (state w))) as [Pth Psp].
  rewrite Pp, Pv, Ppi, Pro, physics_yaw, Pth, Psp, Hp, Hv, Hpi, Hro, Hya.
  repeat split; try reflexivity; assumption.
Qed.


